(** * Sarjan workspace graph: a shallow embedding of [src/sarjan/base.py]

    The development follows the Python module function by function:
    [Connection.separate_path], [Connection.__eq__], the [Workspace]
    methods, [Document.ProtectedMetadata], the JSON encoder and the decoding
    hook.  The libraries the module calls are not part of the repository
    and are modelled at their documented interface:

    - [pathlib.Path]: a value distinct from every [str], compared through
      its normalised text (spurious slashes and single dots collapsed);
    - [networkx.Graph]: node table, one attribute record per unordered
      pair of adjacent nodes, graph-level attribute;
    - [fs.base.FS]: an interface ([Class FS]) whose calls may raise;
    - [json]: printing and parsing of JSON trees ([Class Json]).

    Python exceptions are values of [exn]; a method is a state transformer
    that returns either an exception or a result (monad [M]). *)

From Stdlib Require Import List String Ascii Bool ZArith Arith Lia.
Import ListNotations.
Local Open Scope string_scope.
Local Open Scope list_scope.

Set Warnings "-register-all".

(* ===================================================================== *)
(** * Strings: [str.split] and the text of a [pathlib.Path]               *)
(* ===================================================================== *)

(** [s.split(sep)] for a one-character separator: never the empty list. *)
Fixpoint split (sep : ascii) (s : string) : list string :=
  match s with
  | EmptyString => [EmptyString]
  | String c s' =>
      if Ascii.eqb c sep then EmptyString :: split sep s'
      else match split sep s' with
           | [] => [String c EmptyString]
           | h :: t => String c h :: t
           end
  end.

(** Number of occurrences of the separator. *)
Fixpoint count_sep (sep : ascii) (s : string) : nat :=
  match s with
  | EmptyString => 0
  | String c s' => (if Ascii.eqb c sep then 1 else 0) + count_sep sep s'
  end.

Definition colon : ascii := ":"%char.
Definition slash : ascii := "/"%char.

(** Root of a POSIX path: exactly two leading slashes are kept, one or
    three and more collapse to a single slash. *)
Definition posix_root (s : string) : string :=
  match s with
  | String "/" (String "/" (String "/" _)) => "/"
  | String "/" (String "/" _) => "//"
  | String "/" _ => "/"
  | _ => EmptyString
  end.

(** A component that [pathlib] keeps: neither empty nor a single dot. *)
Definition is_component (x : string) : bool :=
  negb (String.eqb x EmptyString) && negb (String.eqb x ".").

(** Components of a POSIX path: empty components and single dots vanish. *)
Definition posix_parts (s : string) : list string :=
  filter is_component (split slash s).

(** [str(Path(s))]. *)
Definition path_str (s : string) : string :=
  match (posix_root s ++ String.concat "/" (posix_parts s))%string with
  | EmptyString => "."
  | t => t
  end.

(* ===================================================================== *)
(** * Python values                                                       *)
(* ===================================================================== *)

(** Hashable values the module uses as graph node identifiers and as
    document paths: a [str], or a [pathlib.Path] (kept as its normalised
    text).  A [Path] never equals a [str], whatever their texts. *)
Inductive pykey : Type :=
| KStr (s : string)
| KPath (s : string).

(** [Path(s)]. *)
Definition Path (s : string) : pykey := KPath (path_str s).

(** [str(k)], as used by f-strings. *)
Definition key_text (k : pykey) : string :=
  match k with KStr s => s | KPath s => s end.

Definition pykey_eqb (a b : pykey) : bool :=
  match a, b with
  | KStr s, KStr t => String.eqb s t
  | KPath s, KPath t => String.eqb s t
  | _, _ => false
  end.

(** Values held in metadata mappings and in the node-link structure.
    A [dict] with [str] keys is an association list in insertion order.
    [PDocument] and [PConnection] are live objects; [oid] is the
    allocation stamp that stands for object identity. *)
Inductive pyval : Type :=
| PNone
| PBool (b : bool)
| PInt (n : Z)
| PStr (s : string)
| PPath (s : string)
| PList (l : list pyval)
| PDict (d : list (string * pyval))
| PDocument (oid : nat) (path : pykey) (metadata : list (string * pyval))
| PConnection (oid : nat) (source target : string)
              (metadata : list (string * pyval)).

Definition dict : Type := list (string * pyval).

Definition key_val (k : pykey) : pyval :=
  match k with KStr s => PStr s | KPath s => PPath s end.

(** [k in d] *)
Definition dict_has (k : string) (d : dict) : bool :=
  existsb (fun kv => String.eqb (fst kv) k) d.

(** [d.get(k)] *)
Fixpoint dict_get (k : string) (d : dict) : option pyval :=
  match d with
  | [] => None
  | (k', v) :: d' => if String.eqb k' k then Some v else dict_get k d'
  end.

(** [d[k] = v]: an existing key keeps its position. *)
Fixpoint dict_set (k : string) (v : pyval) (d : dict) : dict :=
  match d with
  | [] => [(k, v)]
  | (k', v') :: d' =>
      if String.eqb k' k then (k', v) :: d' else (k', v') :: dict_set k v d'
  end.

(** [del d[k]] on a present key. *)
Definition dict_remove (k : string) (d : dict) : dict :=
  filter (fun kv => negb (String.eqb (fst kv) k)) d.

(** [for key, value in m.items(): d[key] = value] *)
Definition dict_update (d m : dict) : dict :=
  fold_left (fun acc kv => dict_set (fst kv) (snd kv) acc) m d.

(** Truth value of a Python object ([if metadata:]). *)
Definition truthy (v : pyval) : bool :=
  match v with
  | PNone => false
  | PBool b => b
  | PInt n => negb (Z.eqb n 0)
  | PStr s => negb (String.eqb s EmptyString)
  | PPath _ => true
  | PList l => match l with [] => false | _ => true end
  | PDict d => match d with [] => false | _ => true end
  | PDocument _ _ _ => true
  | PConnection _ _ _ _ => true
  end.

(* ===================================================================== *)
(** * Exceptions                                                          *)
(* ===================================================================== *)

(** The [ValueError]s of [base.py], one constructor per message. *)
Inductive value_error : Type :=
| DocumentNotFound (p : pykey)
    (* "Document {doc_path} not found in workspace" *)
| ConnectionNotInList (s t : string)
    (* "Connection {source} -> {target} not found in connection list" *)
| ConnectionNotInWorkspace (s t : string)
    (* "Connection {source} -> {target} not found in workspace" *)
| InvalidPath (s : string)
    (* "Invalid path {path}" *)
| CannotCompare
    (* "Cannot compare Connection with {type(other)}" *)
| NotInList.
    (* "list.remove(x): x not in list" *)

Inductive exn : Type :=
| ValueError (e : value_error)
| TypeError (msg : string)
| AttributeError (attr : string)
| KeyError (key : string)
| ResourceNotFound (p : pykey)     (* fs.errors.ResourceNotFound *)
| FSError (msg : string)           (* any other fs.errors exception *)
| JSONDecodeError
| RecursionError                   (* maximum recursion depth exceeded *)
| Unmodelled.                      (* input outside the typed graph model *)

Inductive result (A : Type) : Type :=
| Ok (a : A)
| Err (e : exn).
Arguments Ok {A} a.
Arguments Err {A} e.

(** The error classes of the specification, read off the exceptions. *)
Definition is_NotFound (e : exn) : bool :=
  match e with
  | ValueError (DocumentNotFound _) => true
  | ValueError (ConnectionNotInList _ _) => true
  | ValueError (ConnectionNotInWorkspace _ _) => true
  | ResourceNotFound _ => true
  | _ => false
  end.

Definition is_InvalidAddress (e : exn) : bool :=
  match e with
  | ValueError (InvalidPath _) => true
  | _ => false
  end.

(* ===================================================================== *)
(** * [Connection.separate_path]                                          *)
(* ===================================================================== *)

(** [comp = path.split(":")]; two components give [(Path(comp[0]),
    comp[1])], one gives [(Path(comp[0]), None)], anything else raises. *)
Definition separate_path (path : string) : result (pykey * option string) :=
  match split colon path with
  | [doc; tag] => Ok (Path doc, Some tag)
  | [doc] => Ok (Path doc, None)
  | _ => Err (ValueError (InvalidPath path))
  end.

(* ===================================================================== *)
(** * Documents, connections and the graph                                *)
(* ===================================================================== *)

(** [Document]: [path] and [metadata]; the back-reference to the owning
    workspace is implicit, every method below runs on that workspace. *)
Record Document : Type := mkDocument {
  doc_oid : nat;
  doc_path : pykey;
  doc_metadata : dict
}.

(** [Connection]: [source], [target], [metadata]. *)
Record Connection : Type := mkConnection {
  conn_oid : nat;
  conn_source : string;
  conn_target : string;
  conn_metadata : dict
}.

Definition doc_val (d : Document) : pyval :=
  PDocument (doc_oid d) (doc_path d) (doc_metadata d).

Definition conn_val (c : Connection) : pyval :=
  PConnection (conn_oid c) (conn_source c) (conn_target c) (conn_metadata c).

(** One adjacency record of the undirected graph: networkx shares a single
    attribute dict between [_adj[u][v]] and [_adj[v][u]]; its only
    attribute here is ["connlist"]. *)
Record Edge : Type := mkEdge {
  edge_u : pykey;
  edge_v : pykey;
  connlist : list Connection
}.

(** [nx.Graph]: [nodes] maps a node identifier to its ["document"]
    attribute, [edges] holds one record per unordered adjacent pair,
    [graph_meta] is [G.graph], the workspace-level metadata. *)
Record Graph : Type := mkGraph {
  nodes : list (pykey * Document);
  edges : list Edge;
  graph_meta : pyval
}.

(** [n in G.nodes] *)
Definition has_node (n : pykey) (g : Graph) : bool :=
  existsb (fun kd => pykey_eqb (fst kd) n) (nodes g).

(** [G.nodes[n]["document"]] *)
Fixpoint lookup_node (n : pykey) (l : list (pykey * Document))
  : option Document :=
  match l with
  | [] => None
  | (k, d) :: l' => if pykey_eqb k n then Some d else lookup_node n l'
  end.

Fixpoint set_node (n : pykey) (d : Document) (l : list (pykey * Document))
  : list (pykey * Document) :=
  match l with
  | [] => [(n, d)]
  | (k, d') :: l' =>
      if pykey_eqb k n then (k, d) :: l' else (k, d') :: set_node n d l'
  end.

(** [G.add_node(n, document=d)]: a new node, or the attribute of an
    existing node replaced. *)
Definition add_node (n : pykey) (d : Document) (g : Graph) : Graph :=
  mkGraph (set_node n d (nodes g)) (edges g) (graph_meta g).

(** The record joins [u] and [v], in either order. *)
Definition joins (u v : pykey) (e : Edge) : bool :=
  (pykey_eqb (edge_u e) u && pykey_eqb (edge_v e) v)
  || (pykey_eqb (edge_u e) v && pykey_eqb (edge_v e) u).

Definition find_edge (u v : pykey) (g : Graph) : option Edge :=
  find (joins u v) (edges g).

(** [G.has_edge(u, v)] *)
Definition has_edge (u v : pykey) (g : Graph) : bool :=
  match find_edge u v g with Some _ => true | None => false end.

(** Assignment to [G.edges[u, v]["connlist"]] of an existing edge. *)
Definition set_connlist (u v : pykey) (cl : list Connection) (g : Graph)
  : Graph :=
  mkGraph (nodes g)
          (map (fun e => if joins u v e
                         then mkEdge (edge_u e) (edge_v e) cl else e)
               (edges g))
          (graph_meta g).

(** [G.add_edge(u, v, connlist=cl)] between two existing nodes. *)
Definition add_edge (u v : pykey) (cl : list Connection) (g : Graph)
  : Graph :=
  if has_edge u v g then set_connlist u v cl g
  else mkGraph (nodes g) (edges g ++ [mkEdge u v cl]) (graph_meta g).

(** [G.remove_edge(u, v)] *)
Definition remove_edge (u v : pykey) (g : Graph) : Graph :=
  mkGraph (nodes g) (filter (fun e => negb (joins u v e)) (edges g))
          (graph_meta g).

Definition incident (n : pykey) (e : Edge) : bool :=
  pykey_eqb (edge_u e) n || pykey_eqb (edge_v e) n.

(** [G.remove_node(n)]: the node and every edge touching it. *)
Definition remove_node (n : pykey) (g : Graph) : Graph :=
  mkGraph (filter (fun kd => negb (pykey_eqb (fst kd) n)) (nodes g))
          (filter (fun e => negb (incident n e)) (edges g))
          (graph_meta g).

(** [G.neighbors(n)] *)
Definition neighbors (n : pykey) (g : Graph) : list pykey :=
  flat_map (fun e => if pykey_eqb (edge_u e) n then [edge_v e]
                     else if pykey_eqb (edge_v e) n then [edge_u e]
                     else [])
           (edges g).

(** Mutation of the live [Document] object [oid] through a reference. *)
Definition mutate_document (oid : nat) (f : dict -> dict) (g : Graph)
  : Graph :=
  mkGraph (map (fun kd =>
                  if Nat.eqb (doc_oid (snd kd)) oid
                  then (fst kd, mkDocument oid (doc_path (snd kd))
                                           (f (doc_metadata (snd kd))))
                  else kd)
               (nodes g))
          (edges g) (graph_meta g).

(** Mutation of the live [Connection] object [oid] through a reference. *)
Definition mutate_connection (oid : nat) (f : dict -> dict) (g : Graph)
  : Graph :=
  mkGraph (nodes g)
          (map (fun e =>
                  mkEdge (edge_u e) (edge_v e)
                    (map (fun c =>
                            if Nat.eqb (conn_oid c) oid
                            then mkConnection oid (conn_source c)
                                   (conn_target c) (f (conn_metadata c))
                            else c)
                         (connlist e)))
               (edges g))
          (graph_meta g).

(** Current metadata of the object a reference [d] points to: the live
    object when it is a node payload, the reference's own copy otherwise. *)
Definition live_metadata (d : Document) (g : Graph) : dict :=
  match find (fun kd => Nat.eqb (doc_oid (snd kd)) (doc_oid d)) (nodes g) with
  | Some kd => doc_metadata (snd kd)
  | None => doc_metadata d
  end.

(* ===================================================================== *)
(** * [Connection.__eq__]                                                 *)
(* ===================================================================== *)

(** The right-hand operands the module compares a connection with. *)
Inductive operand : Type :=
| OConnection (c : Connection)
| OTuple (a b : string).

Definition isinstance_error : exn :=
  TypeError "isinstance() argument 2 cannot be a parameterized generic".

(** [isinstance(other, tuple[str, str])]: the second argument is a
    parameterized generic, which [isinstance] rejects for every [other]. *)
Definition isinstance_tuple_str_str (other : operand) : result bool :=
  Err isinstance_error.

(** [Connection.__eq__]: a [Connection] operand is compared by source and
    target; any other operand goes through the [isinstance] test on the
    tuple type, the last branch raises. *)
Definition Connection_eq (self : Connection) (other : operand) : result bool :=
  match other with
  | OConnection o =>
      Ok (String.eqb (conn_source self) (conn_source o)
          && String.eqb (conn_target self) (conn_target o))
  | OTuple a b =>
      match isinstance_tuple_str_str other with
      | Err e => Err e
      | Ok true =>
          Ok (String.eqb (conn_source self) a
              && String.eqb (conn_target self) b)
      | Ok false => Err (ValueError CannotCompare)
      end
  end.

(** [for conn in connection_list: if conn == (source, target): return conn]
    followed by the [ValueError] of the exhausted loop. *)
Fixpoint scan_connlist (source target : string) (l : list Connection)
  : result Connection :=
  match l with
  | [] => Err (ValueError (ConnectionNotInList source target))
  | conn :: l' =>
      match Connection_eq conn (OTuple source target) with
      | Err e => Err e
      | Ok true => Ok conn
      | Ok false => scan_connlist source target l'
      end
  end.

(** [connection_list.remove(conn)]: the first element that is [conn] or
    compares equal to it. *)
Fixpoint list_remove (conn : Connection) (l : list Connection)
  : result (list Connection) :=
  match l with
  | [] => Err (ValueError NotInList)
  | c :: l' =>
      if Nat.eqb (conn_oid c) (conn_oid conn) then Ok l'
      else match Connection_eq c (OConnection conn) with
           | Err e => Err e
           | Ok true => Ok l'
           | Ok false =>
               match list_remove conn l' with
               | Ok r => Ok (c :: r)
               | Err e => Err e
               end
           end
  end.

(* ===================================================================== *)
(** * The filesystem adapter and the JSON text codec                      *)
(* ===================================================================== *)

(** The [fs.base.FS] calls of the module.  [F] is the state of the
    filesystem, [text] the type of file contents (a Python [str]).  Every
    call receives the path argument as the module passes it, a [str] or a
    [Path], and may raise.  [fs_open_w] is [open(path, "w")], which creates
    or truncates the file; [fs_write] is [f.write(text)] on that handle;
    [fs_open_r] is [open(path, "r")] followed by [f.read()].
    [path_dirname] is the module-level [fs.path.dirname];
    [fs_attr_path_dirname] is the expression [fs.path.dirname(dir)] of
    [utils.py], where the name [fs] is the filesystem object itself. *)
Class FS (F text : Type) : Type := {
  fs_isfile : F -> pykey -> result bool;
  fs_exists : F -> pykey -> result bool;
  fs_makedirs : F -> pykey -> result F;
  fs_create : F -> pykey -> result (F * bool);
  fs_touch : F -> pykey -> result F;
  fs_open_r : F -> pykey -> result text;
  fs_open_w : F -> pykey -> result F;
  fs_write : F -> pykey -> text -> result F;
  fs_remove : F -> pykey -> result F;
  fs_isempty : F -> pykey -> result bool;
  fs_removedir : F -> pykey -> result F;
  path_dirname : pykey -> result pykey;
  fs_attr_path_dirname : F -> pykey -> result pykey
}.

(** [json.dumps] on a tree of JSON data and [json.loads] without hook;
    [None] is [json.JSONDecodeError]. *)
Class Json (text : Type) : Type := {
  json_dumps : pyval -> text;
  json_loads : text -> option pyval
}.

(* ===================================================================== *)
(** * The encoder: [_WorkspaceJSONEncoder]                                *)
(* ===================================================================== *)

(** [json.dumps(..., cls=_WorkspaceJSONEncoder)] walks the value; for an
    object it cannot serialise it calls [default], which turns a
    [Document] or a [Connection] into a tagged record and defers to
    [super().default] (a [TypeError]) for anything else, such as a
    [Path].  [encode] yields the tree of JSON data that is printed. *)
Definition not_serializable : exn :=
  TypeError "Object of type PosixPath is not JSON serializable".

Definition encode_key (k : pykey) : result pyval :=
  match k with
  | KStr s => Ok (PStr s)
  | KPath _ => Err not_serializable
  end.

Fixpoint encode (v : pyval) : result pyval :=
  let encode_dict :=
    fix go (d : list (string * pyval)) : result (list (string * pyval)) :=
      match d with
      | [] => Ok []
      | (k, x) :: d' =>
          match encode x with
          | Err e => Err e
          | Ok x' => match go d' with
                     | Err e => Err e
                     | Ok r => Ok ((k, x') :: r)
                     end
          end
      end in
  match v with
  | PNone | PBool _ | PInt _ | PStr _ => Ok v
  | PPath _ => Err not_serializable
  | PList l =>
      match (fix go (l : list pyval) : result (list pyval) :=
               match l with
               | [] => Ok []
               | x :: l' =>
                   match encode x with
                   | Err e => Err e
                   | Ok x' => match go l' with
                              | Err e => Err e
                              | Ok r => Ok (x' :: r)
                              end
                   end
               end) l with
      | Err e => Err e
      | Ok l' => Ok (PList l')
      end
  | PDict d =>
      match encode_dict d with
      | Err e => Err e
      | Ok d' => Ok (PDict d')
      end
  | PDocument _ path metadata =>
      match encode_key path with
      | Err e => Err e
      | Ok p => match encode_dict metadata with
                | Err e => Err e
                | Ok m => Ok (PDict [("document.path", p);
                                     ("document.metadata", PDict m)])
                end
      end
  | PConnection _ source target metadata =>
      match encode_dict metadata with
      | Err e => Err e
      | Ok m => Ok (PDict [("connection.source", PStr source);
                           ("connection.target", PStr target);
                           ("connection.metadata", PDict m)])
      end
  end.

(** [nx.node_link_data(G)]: every node record is the node's attributes
    plus ["id"], every link record the edge's attributes plus ["source"]
    and ["target"]. *)
Definition node_record (kd : pykey * Document) : pyval :=
  PDict [("document", doc_val (snd kd)); ("id", key_val (fst kd))].

Definition link_record (e : Edge) : pyval :=
  PDict [("connlist", PList (map conn_val (connlist e)));
         ("source", key_val (edge_u e));
         ("target", key_val (edge_v e))].

Definition node_link_data (g : Graph) : pyval :=
  PDict [("directed", PBool false);
         ("multigraph", PBool false);
         ("graph", graph_meta g);
         ("nodes", PList (map node_record (nodes g)));
         ("links", PList (map link_record (edges g)))].

(* ===================================================================== *)
(** * The decoder: [json_object_hook] and [nx.node_link_graph]            *)
(* ===================================================================== *)

(** A value used as a document path or node identifier. *)
Definition val_key (v : pyval) : result pykey :=
  match v with
  | PStr s => Ok (KStr s)
  | PPath s => Ok (KPath s)
  | _ => Err Unmodelled
  end.

Definition val_str (v : pyval) : result string :=
  match v with
  | PStr s => Ok s
  | _ => Err Unmodelled
  end.

(** [if metadata: for key, value in metadata.items(): ...] on an
    arbitrary value: the pairs to assign, or the [AttributeError] of a
    true value that has no [items]. *)
Definition metadata_items (v : pyval) : result dict :=
  if truthy v then
    match v with
    | PDict d => Ok d
    | _ => Err (AttributeError "items")
    end
  else Ok [].

(** [json_object_hook(dct, workspace)], given the stamp [n] of the next
    allocated object: the decoded value and the next stamp. *)
Definition json_object_hook (dct : dict) (n : nat) : result (pyval * nat) :=
  if dict_has "document.path" dct && dict_has "document.metadata" dct then
    match dict_get "document.path" dct, dict_get "document.metadata" dct with
    | Some p, Some m =>
        match val_key p with
        | Err e => Err e
        | Ok path =>
            match metadata_items m with
            | Err e => Err e
            | Ok items => Ok (PDocument n path (dict_update [] items), S n)
            end
        end
    | _, _ => Err (KeyError "document.path")
    end
  else if dict_has "connection.source" dct
          && dict_has "connection.target" dct
          && dict_has "connection.metadata" dct then
    match dict_get "connection.source" dct,
          dict_get "connection.target" dct,
          dict_get "connection.metadata" dct with
    | Some s, Some t, Some m =>
        match val_str s, val_str t with
        | Ok source, Ok target =>
            match metadata_items m with
            | Err e => Err e
            | Ok items =>
                Ok (PConnection n source target (dict_update [] items), S n)
            end
        | _, _ => Err Unmodelled
        end
    | _, _, _ => Err (KeyError "connection.source")
    end
  else Ok (PDict dct, n).

(** [json.loads(text, object_hook=...)] after parsing: the hook is applied
    to every JSON object, innermost first. *)
Fixpoint decode (v : pyval) (n : nat) : result (pyval * nat) :=
  match v with
  | PList l =>
      match (fix go (l : list pyval) (n : nat) : result (list pyval * nat) :=
               match l with
               | [] => Ok ([], n)
               | x :: l' =>
                   match decode x n with
                   | Err e => Err e
                   | Ok (x', n1) =>
                       match go l' n1 with
                       | Err e => Err e
                       | Ok (r, n2) => Ok (x' :: r, n2)
                       end
                   end
               end) l n with
      | Err e => Err e
      | Ok (l', n') => Ok (PList l', n')
      end
  | PDict d =>
      match (fix go (d : list (string * pyval)) (n : nat)
               : result (list (string * pyval) * nat) :=
               match d with
               | [] => Ok ([], n)
               | (k, x) :: d' =>
                   match decode x n with
                   | Err e => Err e
                   | Ok (x', n1) =>
                       match go d' n1 with
                       | Err e => Err e
                       | Ok (r, n2) => Ok ((k, x') :: r, n2)
                       end
                   end
               end) d n with
      | Err e => Err e
      | Ok (d', n') => json_object_hook d' n'
      end
  | _ => Ok (v, n)
  end.

Definition val_document (v : pyval) : result Document :=
  match v with
  | PDocument o p m => Ok (mkDocument o p m)
  | _ => Err Unmodelled
  end.

Fixpoint val_connections (l : list pyval) : result (list Connection) :=
  match l with
  | [] => Ok []
  | PConnection o s t m :: l' =>
      match val_connections l' with
      | Ok r => Ok (mkConnection o s t m :: r)
      | Err e => Err e
      end
  | _ :: _ => Err Unmodelled
  end.

(** One element of [data["nodes"]]: [graph.add_node(d["id"], **rest)].
    The typed graph holds nodes whose only attribute is a ["document"]. *)
Definition load_node (g : Graph) (v : pyval) : result Graph :=
  match v with
  | PDict r =>
      match dict_get "id" r with
      | Some idv =>
          match val_key idv with
          | Err e => Err e
          | Ok n =>
              match dict_remove "id" r with
              | [("document", dv)] =>
                  match val_document dv with
                  | Ok d => Ok (add_node n d g)
                  | Err e => Err e
                  end
              | _ => Err Unmodelled
              end
          end
      | None => Err Unmodelled
      end
  | _ => Err Unmodelled
  end.

(** One element of [data["links"]]: [graph.add_edge(d["source"],
    d["target"], **rest)].  The typed graph holds edges between document
    nodes whose only attribute is a ["connlist"] of connections. *)
Definition load_link (g : Graph) (v : pyval) : result Graph :=
  match v with
  | PDict r =>
      match dict_get "source" r, dict_get "target" r with
      | Some sv, Some tv =>
          match val_key sv, val_key tv with
          | Ok u, Ok w =>
              match dict_remove "target" (dict_remove "source" r) with
              | [("connlist", PList cl)] =>
                  match val_connections cl with
                  | Ok cs =>
                      if has_node u g && has_node w g
                      then Ok (add_edge u w cs g)
                      else Err Unmodelled
                  | Err e => Err e
                  end
              | _ => Err Unmodelled
              end
          | _, _ => Err Unmodelled
          end
      | None, _ => Err (KeyError "source")
      | _, None => Err (KeyError "target")
      end
  | _ => Err Unmodelled
  end.

Fixpoint fold_result {A B : Type} (f : A -> B -> result A) (a : A)
  (l : list B) : result A :=
  match l with
  | [] => Ok a
  | x :: l' =>
      match f a x with
      | Ok a' => fold_result f a' l'
      | Err e => Err e
      end
  end.

(** [nx.node_link_graph(data)].  [data.get("multigraph", True)] and
    [data.get("directed", False)] select the graph class; the typed graph
    is the undirected simple one. *)
Definition node_link_graph (data : pyval) : result Graph :=
  match data with
  | PDict d =>
      let flag k default :=
        match dict_get k d with Some v => truthy v | None => default end in
      if flag "multigraph" true || flag "directed" false then Err Unmodelled
      else
        let meta :=
          match dict_get "graph" d with Some v => v | None => PDict [] end in
        match dict_get "nodes" d with
        | Some (PList nl) =>
            match fold_result load_node (mkGraph [] [] meta) nl with
            | Err e => Err e
            | Ok g1 =>
                match dict_get "links" d with
                | Some (PList ll) => fold_result load_link g1 ll
                | Some _ => Err Unmodelled
                | None => Err (KeyError "links")
                end
            end
        | Some _ => Err Unmodelled
        | None => Err (KeyError "nodes")
        end
  | _ => Err (AttributeError "get")
  end.

(* ===================================================================== *)
(** * The workspace and its monad                                         *)
(* ===================================================================== *)

(** A [Workspace] object: the filesystem it was opened on, the graph, and
    the stamp of the next object to be allocated.  [save_file] is the
    constant ["workspace.json"]. *)
Record Workspace (F : Type) : Type := mkWorkspace {
  workspace : F;
  graph : Graph;
  next_oid : nat
}.
Arguments mkWorkspace {F} _ _ _.
Arguments workspace {F} _.
Arguments graph {F} _.
Arguments next_oid {F} _.

Definition save_file : pykey := KStr "workspace.json".

(** A method call: it may change the workspace and the filesystem, and
    ends with a result or an exception; what was changed before an
    exception stays changed. *)
Definition M (F A : Type) : Type := Workspace F -> Workspace F * result A.

Definition ret {F A : Type} (a : A) : M F A := fun ws => (ws, Ok a).

Definition raise {F A : Type} (e : exn) : M F A := fun ws => (ws, Err e).

Definition bind {F A B : Type} (c : M F A) (k : A -> M F B) : M F B :=
  fun ws =>
    match c ws with
    | (ws', Ok a) => k a ws'
    | (ws', Err e) => (ws', Err e)
    end.

Declare Scope monad_scope.
Delimit Scope monad_scope with monad.
Notation "x <- c ;; k" := (bind c (fun x => k))
  (at level 61, c at next level, right associativity) : monad_scope.
Notation "' pat <- c ;; k" :=
  (bind c (fun x => match x with pat => k end))
  (at level 61, pat pattern, c at next level, right associativity)
  : monad_scope.
Notation "c ;; k" := (bind c (fun _ => k))
  (at level 61, right associativity) : monad_scope.

Definition lift {F A : Type} (r : result A) : M F A := fun ws => (ws, r).

Definition get_graph {F : Type} : M F Graph := fun ws => (ws, Ok (graph ws)).

Definition set_graph {F : Type} (g : Graph) : M F unit :=
  fun ws => (mkWorkspace (workspace ws) g (next_oid ws), Ok tt).

(** A filesystem call that only answers. *)
Definition fs_query {F A : Type} (q : F -> result A) : M F A :=
  fun ws => (ws, q (workspace ws)).

(** A filesystem call that changes the filesystem. *)
Definition fs_update {F : Type} (u : F -> result F) : M F unit :=
  fun ws =>
    match u (workspace ws) with
    | Ok fs' => (mkWorkspace fs' (graph ws) (next_oid ws), Ok tt)
    | Err e => (ws, Err e)
    end.

(** Allocation of a fresh object. *)
Definition alloc {F : Type} : M F nat :=
  fun ws => (mkWorkspace (workspace ws) (graph ws) (S (next_oid ws)),
             Ok (next_oid ws)).

Definition when {F : Type} (b : bool) (c : M F unit) : M F unit :=
  if b then c else ret tt.

Section Methods.
Context {F text : Type} {Hfs : FS F text} {Hjson : Json text}.
Local Open Scope monad_scope.
Local Abbreviation M := (M F).

(** [Workspace(workspace, metadata)] on an opened filesystem. *)
Definition Workspace_init (fs : F) (metadata : dict) : Workspace F :=
  mkWorkspace fs (mkGraph [] [] (PDict metadata)) 0.

(** [Workspace.update_metadata] *)
Definition Workspace_update_metadata (metadata : dict) : M unit :=
  match metadata with
  | [] => ret tt
  | _ =>
      g <- get_graph ;;
      match graph_meta g with
      | PDict d =>
          set_graph (mkGraph (nodes g) (edges g)
                             (PDict (dict_update d metadata)))
      | _ => raise (TypeError "object does not support item assignment")
      end
  end.

(** [Document(path, workspace)]: empty [ProtectedMetadata]. *)
Definition new_Document (path : pykey) : M Document :=
  oid <- alloc ;;
  ret (mkDocument oid path []).

(** [Connection(source, target, workspace)]: empty metadata. *)
Definition new_Connection (source target : string) : M Connection :=
  oid <- alloc ;;
  ret (mkConnection oid source target []).

Definition get_document (doc_path : pykey) : M Document :=
  g <- get_graph ;;
  match lookup_node doc_path (nodes g) with
  | Some d => ret d
  | None => raise (ValueError (DocumentNotFound doc_path))
  end.

Definition create_document (doc_path : pykey) : M Document :=
  isf <- fs_query (fun fs => fs_isfile fs doc_path) ;;
  when (negb isf)
    (dir <- lift (path_dirname doc_path) ;;
     ex <- fs_query (fun fs => fs_exists fs dir) ;;
     when (negb ex) (fs_update (fun fs => fs_makedirs fs dir)) ;;
     fun ws =>
       match fs_create (workspace ws) doc_path with
       | Ok (fs', _) =>
           (mkWorkspace fs' (graph ws) (next_oid ws), Ok tt)
       | Err e => (ws, Err e)
       end) ;;
  doc <- new_Document doc_path ;;
  g <- get_graph ;;
  set_graph (add_node doc_path doc g) ;;
  ret doc.

Definition get_or_create_document (doc_path : pykey) : M Document :=
  g <- get_graph ;;
  match lookup_node doc_path (nodes g) with
  | Some d => ret d
  | None => create_document doc_path
  end.

(** [Document.read_content] *)
Definition read_content (self : Document) : M text :=
  fs_query (fun fs => fs_open_r fs (doc_path self)).

(** [Document.write_content] *)
Definition write_content (self : Document) (content : text) : M unit :=
  fs_update (fun fs => fs_open_w fs (doc_path self)) ;;
  fs_update (fun fs => fs_write fs (doc_path self) content).

(** [Document.update_metadata] *)
Definition Document_update_metadata (self : Document) (metadata : dict)
  : M unit :=
  match metadata with
  | [] => ret tt
  | _ =>
      g <- get_graph ;;
      set_graph (mutate_document (doc_oid self)
                                 (fun d => dict_update d metadata) g)
  end.

(** [Connection.update_metadata] *)
Definition Connection_update_metadata (self : Connection) (metadata : dict)
  : M unit :=
  match metadata with
  | [] => ret tt
  | _ =>
      g <- get_graph ;;
      set_graph (mutate_connection (conn_oid self)
                                   (fun d => dict_update d metadata) g)
  end.

Definition write_document (doc_path : pykey) (content : text) : M unit :=
  doc <- get_or_create_document doc_path ;;
  write_content doc content.

Definition update_document (doc_path : pykey) (metadata : dict) : M unit :=
  doc <- get_document doc_path ;;
  Document_update_metadata doc metadata.

(** [if tag and tag not in doc.metadata.keys():] the tag is entered with
    the empty string as its value. *)
Definition ensure_tag (doc : Document) (tag : option string) : M unit :=
  match tag with
  | Some t =>
      g <- get_graph ;;
      when (negb (String.eqb t EmptyString)
            && negb (dict_has t (live_metadata doc g)))
           (set_graph (mutate_document (doc_oid doc)
                                       (dict_set t (PStr EmptyString)) g))
  | None => ret tt
  end.

Definition create_connection (source target : string) : M Connection :=
  conn <- new_Connection source target ;;
  ' (source_doc_path, source_tag) <- lift (separate_path source) ;;
  ' (target_doc_path, target_tag) <- lift (separate_path target) ;;
  source_doc <- get_or_create_document source_doc_path ;;
  target_doc <- get_or_create_document target_doc_path ;;
  ensure_tag source_doc source_tag ;;
  ensure_tag target_doc target_tag ;;
  g <- get_graph ;;
  match find_edge source_doc_path target_doc_path g with
  | Some e =>
      set_graph (set_connlist source_doc_path target_doc_path
                              (connlist e ++ [conn]) g)
  | None =>
      set_graph (add_edge source_doc_path target_doc_path [conn] g)
  end ;;
  ret conn.

Definition get_connection (source target : string) : M Connection :=
  ' (source_doc_path, _) <- lift (separate_path source) ;;
  ' (target_doc_path, _) <- lift (separate_path target) ;;
  g <- get_graph ;;
  match find_edge source_doc_path target_doc_path g with
  | Some e => lift (scan_connlist source target (connlist e))
  | None => raise (ValueError (ConnectionNotInWorkspace source target))
  end.

(** [self.graph_nodes]: a [Workspace] has the attributes [workspace],
    [graph] and [save_file] only, so the lookup raises. *)
Definition Workspace_graph_nodes : M (list pykey) :=
  raise (AttributeError "graph_nodes").

Definition get_connections_with_source (source : string)
  : M (list Connection) :=
  ' (source_doc_path, _) <- lift (separate_path source) ;;
  graph_nodes <- Workspace_graph_nodes ;;
  if existsb (pykey_eqb source_doc_path) graph_nodes then
    g <- get_graph ;;
    ret (flat_map
           (fun target_doc_path =>
              match find_edge source_doc_path target_doc_path g with
              | Some e =>
                  filter (fun conn => String.eqb (conn_source conn) source)
                         (connlist e)
              | None => []
              end)
           (neighbors source_doc_path g))
  else raise (ValueError (DocumentNotFound source_doc_path)).

Definition get_connections_with_target (target : string)
  : M (list Connection) :=
  ' (target_doc_path, _) <- lift (separate_path target) ;;
  graph_nodes <- Workspace_graph_nodes ;;
  if existsb (pykey_eqb target_doc_path) graph_nodes then
    g <- get_graph ;;
    ret (flat_map
           (fun source_doc_path =>
              match find_edge source_doc_path target_doc_path g with
              | Some e =>
                  filter (fun conn => String.eqb (conn_target conn) target)
                         (connlist e)
              | None => []
              end)
           (neighbors target_doc_path g))
  else raise (ValueError (DocumentNotFound target_doc_path)).

Definition update_connection (source target : string) (metadata : dict)
  : M unit :=
  conn <- get_connection source target ;;
  Connection_update_metadata conn metadata.

(** [utils.recurse_remove_empty(fs, dir)].  Inside the function the name
    [fs] is the filesystem argument (the module [fs] is not imported in
    [utils.py]), so the parent directory is asked of the object.  [depth]
    is the number of frames left before the interpreter's
    [RecursionError]. *)
Fixpoint recurse_remove_empty (depth : nat) (dir : pykey) : M unit :=
  match depth with
  | 0 => raise RecursionError
  | S depth' =>
      e <- fs_query (fun fs => fs_isempty fs dir) ;;
      when e (fs_update (fun fs => fs_removedir fs dir) ;;
              parent <- fs_query (fun fs => fs_attr_path_dirname fs dir) ;;
              recurse_remove_empty depth' parent)
  end.

(** [sys.getrecursionlimit()] *)
Definition recursion_limit : nat := 1000.

Definition delete_document (doc_path : pykey) (in_filesystem : bool)
  : M unit :=
  ex <- (if in_filesystem
         then fs_query (fun fs => fs_exists fs doc_path)
         else ret false) ;;
  when ex
    (fs_update (fun fs => fs_remove fs doc_path) ;;
     dir <- lift (path_dirname doc_path) ;;
     recurse_remove_empty recursion_limit dir) ;;
  g <- get_graph ;;
  when (has_node doc_path g) (set_graph (remove_node doc_path g)).

Definition delete_connection (source target : string) : M Connection :=
  ' (source_doc_path, _) <- lift (separate_path source) ;;
  ' (target_doc_path, _) <- lift (separate_path target) ;;
  conn <- get_connection source target ;;
  g <- get_graph ;;
  match find_edge source_doc_path target_doc_path g with
  | None => raise (KeyError "edge")
  | Some e =>
      connection_list <- lift (list_remove conn (connlist e)) ;;
      set_graph (set_connlist source_doc_path target_doc_path
                              connection_list g) ;;
      when (Nat.eqb (List.length connection_list) 0)
           (g' <- get_graph ;;
            set_graph (remove_edge source_doc_path target_doc_path g')) ;;
      ret conn
  end.

Definition save : M unit :=
  ex <- fs_query (fun fs => fs_exists fs save_file) ;;
  when (negb ex) (fs_update (fun fs => fs_touch fs save_file)) ;;
  fs_update (fun fs => fs_open_w fs save_file) ;;
  g <- get_graph ;;
  j <- lift (encode (node_link_data g)) ;;
  fs_update (fun fs => fs_write fs save_file (json_dumps j)).

Definition load : M unit :=
  t <- fs_query (fun fs => fs_open_r fs save_file) ;;
  match json_loads t with
  | None => raise JSONDecodeError
  | Some j =>
      data <- (fun ws =>
                 match decode j (next_oid ws) with
                 | Ok (v, n) =>
                     (mkWorkspace (workspace ws) (graph ws) n, Ok v)
                 | Err e => (ws, Err e)
                 end) ;;
      g <- lift (node_link_graph data) ;;
      set_graph g
  end.

(** ** [Document.ProtectedMetadata] *)

Fixpoint delete_each (l : list Connection) : M unit :=
  match l with
  | [] => ret tt
  | conn :: l' =>
      delete_connection (conn_source conn) (conn_target conn) ;;
      delete_each l'
  end.

(** [ProtectedMetadata._delete_connections]; [parent] is the document
    that owns the mapping, the address is the f-string
    ["{self.parent.path}:{key}"]. *)
Definition _delete_connections (parent : Document) (key : string)
  : M unit :=
  let address := (key_text (doc_path parent) ++ ":" ++ key)%string in
  source_conn_list <- get_connections_with_source address ;;
  target_conn_list <- get_connections_with_target address ;;
  delete_each source_conn_list ;;
  delete_each target_conn_list.

(** [ProtectedMetadata.__delitem__] *)
Definition ProtectedMetadata_delitem (parent : Document) (key : string)
  : M unit :=
  _delete_connections parent key ;;
  g <- get_graph ;;
  if dict_has key (live_metadata parent g)
  then set_graph (mutate_document (doc_oid parent) (dict_remove key) g)
  else raise (KeyError key).

(** [ProtectedMetadata.pop] *)
Definition ProtectedMetadata_pop (parent : Document) (key : string)
  (default : pyval) : M pyval :=
  _delete_connections parent key ;;
  g <- get_graph ;;
  match dict_get key (live_metadata parent g) with
  | Some v =>
      set_graph (mutate_document (doc_oid parent) (dict_remove key) g) ;;
      ret v
  | None => ret default
  end.

End Methods.

(* ===================================================================== *)
(** * An in-memory filesystem                                             *)
(* ===================================================================== *)

(** File contents: plain text, or the text [json.dumps] printed, kept as
    the tree it denotes. *)
Inductive mtext : Type :=
| MText (s : string)
| MJson (j : pyval).

(** Files by path and the directories below the root; the root is the
    empty path.  Path-like arguments are taken by their text.  Like the
    filesystem objects of the [fs] library, it has no attribute [path]. *)
Record MemFS : Type := mkMemFS {
  mem_files : list (string * mtext);
  mem_dirs : list string
}.

Fixpoint mem_lookup (p : string) (l : list (string * mtext)) : option mtext :=
  match l with
  | [] => None
  | (q, t) :: l' => if String.eqb q p then Some t else mem_lookup p l'
  end.

Fixpoint mem_store (p : string) (t : mtext) (l : list (string * mtext))
  : list (string * mtext) :=
  match l with
  | [] => [(p, t)]
  | (q, t') :: l' =>
      if String.eqb q p then (q, t) :: l' else (q, t') :: mem_store p t l'
  end.

Definition mem_isfile (m : MemFS) (p : string) : bool :=
  match mem_lookup p (mem_files m) with Some _ => true | None => false end.

Definition mem_isdir (m : MemFS) (p : string) : bool :=
  String.eqb p EmptyString || existsb (String.eqb p) (mem_dirs m).

(** [fs.path.dirname] on a relative path: the text before the last
    slash, empty when there is none. *)
Definition dirname (p : string) : string :=
  String.concat "/" (removelast (split slash p)).

Definition under (dir p : string) : bool :=
  negb (String.eqb p dir)
  && (String.eqb dir EmptyString || String.prefix (dir ++ "/") p).

Definition mem_put (m : MemFS) (p : string) (t : mtext) : result MemFS :=
  if mem_isdir m p then Err (FSError "FileExpected")
  else if mem_isdir m (dirname p)
       then Ok (mkMemFS (mem_store p t (mem_files m)) (mem_dirs m))
       else Err (ResourceNotFound (KStr p)).

#[export] Instance MemFS_FS : FS MemFS mtext := {
  fs_isfile m k := Ok (mem_isfile m (key_text k));
  fs_exists m k :=
    Ok (mem_isfile m (key_text k) || mem_isdir m (key_text k));
  fs_makedirs m k :=
    if mem_isfile m (key_text k) || mem_isdir m (key_text k)
    then Err (FSError "DirectoryExists")
    else Ok (mkMemFS (mem_files m) (mem_dirs m ++ [key_text k]));
  fs_create m k :=
    if mem_isfile m (key_text k) || mem_isdir m (key_text k)
    then Ok (m, false)
    else match mem_put m (key_text k) (MText EmptyString) with
         | Ok m' => Ok (m', true)
         | Err e => Err e
         end;
  fs_touch m k :=
    if mem_isfile m (key_text k) then Ok m
    else mem_put m (key_text k) (MText EmptyString);
  fs_open_r m k :=
    match mem_lookup (key_text k) (mem_files m) with
    | Some t => Ok t
    | None => Err (ResourceNotFound k)
    end;
  fs_open_w m k := mem_put m (key_text k) (MText EmptyString);
  fs_write m k t := mem_put m (key_text k) t;
  fs_remove m k :=
    if mem_isfile m (key_text k)
    then Ok (mkMemFS (filter (fun qt => negb (String.eqb (fst qt) (key_text k)))
                             (mem_files m))
                     (mem_dirs m))
    else if mem_isdir m (key_text k) then Err (FSError "FileExpected")
         else Err (ResourceNotFound k);
  fs_isempty m k :=
    if mem_isdir m (key_text k)
    then Ok (forallb (fun qt => negb (under (key_text k) (fst qt)))
                     (mem_files m)
             && forallb (fun d => negb (under (key_text k) d)) (mem_dirs m))
    else Err (FSError "DirectoryExpected");
  fs_removedir m k :=
    if String.eqb (key_text k) EmptyString then Err (FSError "RemoveRootError")
    else if existsb (String.eqb (key_text k)) (mem_dirs m)
         then Ok (mkMemFS (mem_files m)
                          (filter (fun d => negb (String.eqb d (key_text k)))
                                  (mem_dirs m)))
         else Err (ResourceNotFound k);
  path_dirname k := Ok (KStr (dirname (key_text k)));
  fs_attr_path_dirname _ _ := Err (AttributeError "path")
}.

#[export] Instance MemFS_Json : Json mtext := {
  json_dumps j := MJson j;
  json_loads t := match t with MJson j => Some j | MText _ => None end
}.

(** The empty workspace on an empty filesystem. *)
Definition ws_empty : Workspace MemFS :=
  Workspace_init (mkMemFS [] []) [].

(* ===================================================================== *)
(** * Stores that the persistence format carries                          *)
(* ===================================================================== *)

Fixpoint distinct_keys (d : list (string * pyval)) : bool :=
  match d with
  | [] => true
  | (k, _) :: d' => negb (dict_has k d') && distinct_keys d'
  end.



(** JSON data: null, booleans, integers, strings, lists, and objects
    with distinct string keys. *)
Fixpoint json_data (v : pyval) : bool :=
  match v with
  | PNone | PBool _ | PInt _ | PStr _ => true
  | PList l =>
      (fix go (l : list pyval) : bool :=
         match l with
         | [] => true
         | x :: l' => json_data x && go l'
         end) l
  | PDict d =>
      distinct_keys d
      && (fix go (d : list (string * pyval)) : bool :=
            match d with
            | [] => true
            | (_, x) :: d' => json_data x && go d'
            end) d
  | _ => false
  end.


Definition is_str_key (k : pykey) : bool :=
  match k with KStr _ => true | KPath _ => false end.















(** The recursions of [encode] and [decode] over lists and mappings,
    on their own. *)
Fixpoint encode_list (l : list pyval) : result (list pyval) :=
  match l with
  | [] => Ok []
  | x :: l' =>
      match encode x with
      | Err e => Err e
      | Ok x' => match encode_list l' with
                 | Err e => Err e
                 | Ok r => Ok (x' :: r)
                 end
      end
  end.

Fixpoint encode_dict (d : list (string * pyval))
  : result (list (string * pyval)) :=
  match d with
  | [] => Ok []
  | (k, x) :: d' =>
      match encode x with
      | Err e => Err e
      | Ok x' => match encode_dict d' with
                 | Err e => Err e
                 | Ok r => Ok ((k, x') :: r)
                 end
      end
  end.








Section Persistence.
Context {F text : Type} {Hfs : FS F text} {Hjson : Json text}.


(** [json.loads] inverts [json.dumps] on JSON data. *)
Definition json_codec_ok : Prop :=
  forall j, json_data j = true -> json_loads (json_dumps j) = Some j.


(** A missing file cannot be read. *)
Definition read_absent_fails (fs : F) : Prop :=
  forall p, fs_exists fs p = Ok false ->
            fs_open_r fs p = Err (ResourceNotFound p).
End Persistence.

(* ===================================================================== *)
(** * Concrete workspaces                                                 *)
(* ===================================================================== *)

(** [create_connection("d1", "d2")] on the empty workspace. *)
Definition ws_connected : Workspace MemFS :=
  fst (create_connection "d1" "d2" ws_empty).

(** [create_connection("d1", "d2")] twice. *)
Definition ws_duplicates : Workspace MemFS :=
  fst (create_connection "d1" "d2" ws_connected).

(** [create_connection("d1:t", "d2")] on the empty workspace. *)
Definition ws_tag_connected : Workspace MemFS :=
  fst (create_connection "d1:t" "d2" ws_empty).

(** [create_document("d1")], then [update_document("d1", {"t": 1})]. *)
Definition ws_tagged : Workspace MemFS :=
  fst (update_document (KStr "d1") [("t", PInt 1)]
         (fst (create_document (KStr "d1") ws_empty))).


(** A store with string identifiers: two documents with metadata, one
    edge with two connections, workspace metadata. *)
Definition ws_stored : Workspace MemFS :=
  mkWorkspace
    (mkMemFS [("d1", MText EmptyString); ("d2", MText EmptyString)] [])
    (mkGraph
       [(KStr "d1", mkDocument 0 (KStr "d1") [("title", PStr "one")]);
        (KStr "d2", mkDocument 1 (KStr "d2") [])]
       [mkEdge (KStr "d1") (KStr "d2")
          [mkConnection 2 "d1:title" "d2" [("weight", PInt 3)];
           mkConnection 3 "d2" "d1" []]]
       (PDict [("name", PStr "demo"); ("tags", PList [PStr "a"; PNone])]))
    4.

(** The same graph on a filesystem without the documents' files, saved. *)
Definition ws_saved_without_files : Workspace MemFS :=
  fst (save (mkWorkspace (mkMemFS [] []) (graph ws_stored) 4)).

(** [doc = workspace.get_document(doc_path)] followed by
    [del doc.metadata[key]]. *)
Definition del_metadata_key {F text : Type} {Hfs : FS F text}
  (doc_path : pykey) (key : string) : M F unit :=
  (doc <- get_document doc_path ;;
   ProtectedMetadata_delitem doc key)%monad.

(** [doc = workspace.get_document(doc_path)] followed by
    [doc.metadata.pop(key)]. *)
Definition pop_metadata_key {F text : Type} {Hfs : FS F text}
  (doc_path : pykey) (key : string) : M F pyval :=
  (doc <- get_document doc_path ;;
   ProtectedMetadata_pop doc key PNone)%monad.

(* ===================================================================== *)
(** * Endpoint values: [Connection.get_source_value], [get_target_value]  *)
(* ===================================================================== *)

(** What the two methods end with: the tag's value, an exception raised by
    [separate_path] or [get_document], or one of their own [ValueError]s. *)
Inductive endpoint_result : Type :=
| EValue (v : pyval)
| ERaise (e : exn)
| ETagNotFound (tag : string) (doc_path : pykey)
    (* "Tag {tag} not found in document {doc_path}" *)
| ESourceNotATag (source : string)
    (* "Source {self.source} is not a tag" *)
| ETargetNotATag (target : string).
    (* "Target {self.target} is not a tag" *)

(** [Connection.get_source_value]: it reads the graph and changes
    nothing. *)
Definition get_source_value (self : Connection) (g : Graph)
  : endpoint_result :=
  match separate_path (conn_source self) with
  | Err e => ERaise e
  | Ok (doc_path, tag) =>
      match lookup_node doc_path (nodes g) with
      | None => ERaise (ValueError (DocumentNotFound doc_path))
      | Some doc =>
          match tag with
          | Some t =>
              if String.eqb t EmptyString
              then ESourceNotATag (conn_source self)
              else match dict_get t (doc_metadata doc) with
                   | Some v => EValue v
                   | None => ETagNotFound t doc_path
                   end
          | None => ESourceNotATag (conn_source self)
          end
      end
  end.

(** [Connection.get_target_value] *)
Definition get_target_value (self : Connection) (g : Graph)
  : endpoint_result :=
  match separate_path (conn_target self) with
  | Err e => ERaise e
  | Ok (doc_path, tag) =>
      match lookup_node doc_path (nodes g) with
      | None => ERaise (ValueError (DocumentNotFound doc_path))
      | Some doc =>
          match tag with
          | Some t =>
              if String.eqb t EmptyString
              then ETargetNotATag (conn_target self)
              else match dict_get t (doc_metadata doc) with
                   | Some v => EValue v
                   | None => ETagNotFound t doc_path
                   end
          | None => ETargetNotATag (conn_target self)
          end
      end
  end.

(** Object identity in a workspace: the documents of the graph are
    distinct objects, all allocated before the next stamp. *)
Fixpoint distinct_stamps (l : list (pykey * Document)) : bool :=
  match l with
  | [] => true
  | (_, d) :: l' =>
      negb (existsb (fun kd => Nat.eqb (doc_oid (snd kd)) (doc_oid d)) l')
      && distinct_stamps l'
  end.

Definition stamps_ok {F : Type} (ws : Workspace F) : bool :=
  distinct_stamps (nodes (graph ws))
  && forallb (fun kd => Nat.ltb (doc_oid (snd kd)) (next_oid ws))
             (nodes (graph ws)).

(** The value of tag [t] of the document at node [k], when both exist. *)
Definition tag_value (g : Graph) (k : pykey) (t : string) : option pyval :=
  match lookup_node k (nodes g) with
  | Some d => dict_get t (doc_metadata d)
  | None => None
  end.

(** What a tag holds once [create_connection] has ensured it: the value it
    had, or the empty string a new tag is created with. *)
Definition ensured_value (g : Graph) (k : pykey) (t : string) : pyval :=
  match tag_value g k t with
  | Some v => v
  | None => PStr EmptyString
  end.

(** A value that contains no [pathlib.Path], at any depth. *)
Fixpoint path_free (v : pyval) : bool :=
  match v with
  | PNone | PBool _ | PInt _ | PStr _ => true
  | PPath _ => false
  | PList l =>
      (fix go (l : list pyval) : bool :=
         match l with
         | [] => true
         | x :: l' => path_free x && go l'
         end) l
  | PDict d =>
      (fix go (d : list (string * pyval)) : bool :=
         match d with
         | [] => true
         | (_, x) :: d' => path_free x && go d'
         end) d
  | PDocument _ path metadata =>
      is_str_key path
      && (fix go (d : list (string * pyval)) : bool :=
            match d with
            | [] => true
            | (_, x) :: d' => path_free x && go d'
            end) metadata
  | PConnection _ _ _ metadata =>
      (fix go (d : list (string * pyval)) : bool :=
         match d with
         | [] => true
         | (_, x) :: d' => path_free x && go d'
         end) metadata
  end.

(* ===================================================================== *)
(** * The document routes: [routers/document.py]                          *)
(* ===================================================================== *)

(** How a route ends: with its return value, with the
    [HTTPException(status_code=404, detail=str(e))] raised from a caught
    [ValueError], or with an exception that no handler of the route
    catches. *)
Inductive response (A : Type) : Type :=
| Returned (a : A)
| HTTPException (status_code : nat) (detail : exn)
| Uncaught (e : exn).
Arguments Returned {A} a.
Arguments HTTPException {A} status_code detail.
Arguments Uncaught {A} e.

(** The exceptions [except ValueError] catches: [ValueError] and its
    subclass [json.JSONDecodeError]. *)
Definition is_ValueError (e : exn) : bool :=
  match e with
  | ValueError _ | JSONDecodeError => true
  | _ => false
  end.

(** [try: return body except ValueError as e: raise HTTPException(404)] *)
Definition try_except_ValueError {F A : Type} (body : M F A)
  : Workspace F -> Workspace F * response A :=
  fun ws =>
    match body ws with
    | (ws', Ok a) => (ws', Returned a)
    | (ws', Err e) =>
        if is_ValueError e then (ws', HTTPException 404 e)
        else (ws', Uncaught e)
    end.

(** The f-string ["./{path}"] the routes look documents up with; [path]
    is the route's [Path] parameter. *)
Definition route_key (path : pykey) : pykey :=
  KStr ("./" ++ key_text path)%string.

Module DocumentRouter.
Section Routes.
Context {F text : Type} {Hfs : FS F text}.
Local Open Scope monad_scope.

(** [GET /documents/{path}/meta] *)
Definition meta (path : pykey)
  : Workspace F -> Workspace F * response dict :=
  try_except_ValueError
    (doc <- get_document (route_key path) ;;
     ret (doc_metadata doc)).

(** [GET /documents/{path}/meta/keys] *)
Definition get_meta_keys (path : pykey)
  : Workspace F -> Workspace F * response (list string) :=
  try_except_ValueError
    (doc <- get_document (route_key path) ;;
     ret (map fst (doc_metadata doc))).

(** [GET /documents/{path}/meta/{key}]: [doc.metadata[key]] raises
    [KeyError] on a missing key. *)
Definition get_metadata_value (path : pykey) (key : string)
  : Workspace F -> Workspace F * response pyval :=
  try_except_ValueError
    (doc <- get_document (route_key path) ;;
     match dict_get key (doc_metadata doc) with
     | Some v => ret v
     | None => raise (KeyError key)
     end).

(** [DELETE /documents/{path}]: the [Path] parameter itself is handed to
    [Workspace.delete_document]; [in_filesystem] is [Optional[bool]]. *)
Definition delete_document (path : pykey) (in_filesystem : option bool)
  : Workspace F -> Workspace F * response unit :=
  try_except_ValueError
    (delete_document path
       (match in_filesystem with Some b => b | None => false end)).

(** [DELETE /documents/{path}/meta/{key}] *)
Definition delete_metadata_key (path : pykey) (key : string)
  : Workspace F -> Workspace F * response unit :=
  try_except_ValueError
    (doc <- get_document (route_key path) ;;
     ProtectedMetadata_delitem doc key).

End Routes.
End DocumentRouter.

(* ===================================================================== *)
(** * Address parsing                                                     *)
(* ===================================================================== *)

Lemma split_nonempty sep s : split sep s <> [].
Proof.
  induction s as [|c s IH]; simpl; [discriminate|].
  destruct (Ascii.eqb c sep); [discriminate|].
  destruct (split sep s); discriminate.
Qed.

Lemma split_length sep s : List.length (split sep s) = S (count_sep sep s).
Proof.
  induction s as [|c s IH]; simpl; [reflexivity|].
  destruct (Ascii.eqb c sep); simpl.
  - now rewrite IH.
  - destruct (split sep s) eqn:E; simpl in *; [discriminate|assumption].
Qed.

Lemma split_no_sep sep s : count_sep sep s = 0 -> split sep s = [s].
Proof.
  induction s as [|c s IH]; simpl; [reflexivity|].
  destruct (Ascii.eqb c sep); simpl; [discriminate|].
  intros H. now rewrite (IH H).
Qed.

Lemma split_one_sep sep s :
  count_sep sep s = 1 ->
  exists l r, s = (l ++ String sep r)%string /\ split sep s = [l; r] /\
              count_sep sep l = 0 /\ count_sep sep r = 0.
Proof.
  induction s as [|c s IH]; simpl; [discriminate|].
  destruct (Ascii.eqb c sep) eqn:E; simpl.
  - intros H. injection H as H.
    apply Ascii.eqb_eq in E. subst c.
    exists EmptyString, s. rewrite (split_no_sep _ _ H). auto.
  - intros H. destruct (IH H) as (l & r & -> & Hs & Hl & Hr).
    exists (String c l), r. rewrite Hs. simpl. rewrite E. auto.
Qed.

Lemma concat_split sep s :
  String.concat (String sep EmptyString) (split sep s) = s.
Proof.
  induction s as [|c s IH]; simpl; [reflexivity|].
  destruct (Ascii.eqb c sep) eqn:E.
  - apply Ascii.eqb_eq in E. subst c.
    destruct (split sep s) as [|h t] eqn:Es;
      [now apply split_nonempty in Es|].
    simpl in *. now rewrite IH.
  - destruct (split sep s) as [|h t] eqn:Es;
      [now apply split_nonempty in Es|].
    simpl in *. destruct t; simpl in *; now rewrite <- IH.
Qed.

(** The text of [Path(s)] is [s] itself when [s] is a relative path
    without empty or single-dot components, as in ["a/b.md"]. *)
Lemma path_str_components s :
  forallb is_component (split slash s) = true -> path_str s = s.
Proof.
  intros H. unfold path_str, posix_parts.
  assert (Hf : filter is_component (split slash s) = split slash s).
  { induction (split slash s) as [|x l IH]; simpl in *; [reflexivity|].
    apply andb_true_iff in H as [Hx Hl]. now rewrite Hx, IH. }
  rewrite Hf. change "/"%string with (String slash EmptyString).
  rewrite concat_split.
  destruct s as [|c s]; [discriminate H|].
  assert (Hc : Ascii.eqb c slash = false).
  { simpl in H. destruct (Ascii.eqb c slash); [discriminate H|reflexivity]. }
  assert (Hr : posix_root (String c s) = EmptyString).
  { unfold posix_root. destruct c as [[] [] [] [] [] [] [] []];
      try reflexivity. discriminate Hc. }
  now rewrite Hr.
Qed.

(** C6.  Address parsing on the [:] separator: with no separator the
    document path is [Path(whole string)] and there is no tag; with exactly
    one separator the document path is [Path(left part)] and the tag is the
    right part; with more than one separator parsing fails with the
    invalid-address error.  The document path is a [Path] object: its text
    is the part itself whenever the part is a relative path whose
    components are all non-empty and different from a single dot, and
    [pathlib]'s normal form of the part otherwise. *)
Theorem separate_path_by_separator_count (a : string) :
  match count_sep colon a with
  | 0 => separate_path a = Ok (Path a, None)
  | 1 => exists l r, a = (l ++ ":" ++ r)%string /\
                     count_sep colon l = 0 /\ count_sep colon r = 0 /\
                     separate_path a = Ok (Path l, Some r)
  | _ => separate_path a = Err (ValueError (InvalidPath a))
  end
  /\ (forall part,
        forallb is_component (split slash part) = true ->
        key_text (Path part) = part).
Proof.
  split.
  - unfold separate_path.
    destruct (count_sep colon a) as [|[|n]] eqn:E.
    + now rewrite (split_no_sep _ _ E).
    + destruct (split_one_sep _ _ E) as (l & r & Ha & Hs & Hl & Hr).
      exists l, r. rewrite Hs. auto.
    + pose proof (split_length colon a) as L. rewrite E in L.
      destruct (split colon a) as [|x [|y [|z t]]]; simpl in L;
        try discriminate; reflexivity.
  - intros part. unfold Path. cbn [key_text].
    apply path_str_components.
Qed.

(** C6 as stated fails: the document path is not the whole string (or the
    left part) for every input.  The address ["./a"] has no separator and
    parses to the path ["a"]; ["./a:t"] parses to the path ["a"] and the
    tag ["t"]. *)
Lemma document_path_not_the_whole_string :
  separate_path "./a" = Ok (KPath "a", None)
  /\ separate_path "./a:t" = Ok (KPath "a", Some "t")
  /\ ~ (forall a, count_sep colon a = 0 ->
          exists k, separate_path a = Ok (k, None) /\ key_text k = a)
  /\ ~ (forall l r, count_sep colon l = 0 -> count_sep colon r = 0 ->
          exists k, separate_path (l ++ ":" ++ r)%string = Ok (k, Some r)
                    /\ key_text k = l).
Proof.
  split; [reflexivity|]. split; [reflexivity|]. split.
  - intros H. destruct (H "./a" eq_refl) as (k & Hk & Ht).
    vm_compute in Hk. injection Hk as <-. discriminate Ht.
  - intros H. destruct (H "./a" "t" eq_refl eq_refl) as (k & Hk & Ht).
    vm_compute in Hk. injection Hk as <-. discriminate Ht.
Qed.

(* ===================================================================== *)
(** * Persistence: [save] followed by [load]                              *)
(* ===================================================================== *)

(** Induction on values, with the hypothesis on every element of a list and
    on every value of a mapping. *)
Lemma pyval_nested_ind (P : pyval -> Prop) :
  P PNone ->
  (forall b, P (PBool b)) ->
  (forall n, P (PInt n)) ->
  (forall s, P (PStr s)) ->
  (forall s, P (PPath s)) ->
  (forall l, Forall P l -> P (PList l)) ->
  (forall d, Forall (fun kv => P (snd kv)) d -> P (PDict d)) ->
  (forall o p m, Forall (fun kv => P (snd kv)) m -> P (PDocument o p m)) ->
  (forall o s t m,
      Forall (fun kv => P (snd kv)) m -> P (PConnection o s t m)) ->
  forall v, P v.
Proof.
  intros HN HB HI HS HP HL HD HDoc HConn.
  fix IH 1.
  assert (IHd : forall d : list (string * pyval),
             Forall (fun kv => P (snd kv)) d).
  { fix IHd 1. intros [|[k x] d]; constructor; [apply IH | apply IHd]. }
  intros [| | | | |l|d|o p m|o s t m].
  - exact HN.
  - apply HB.
  - apply HI.
  - apply HS.
  - apply HP.
  - apply HL. revert l. fix IHl 1.
    intros [|x l]; constructor; [apply IH | apply IHl].
  - apply HD, IHd.
  - apply HDoc, IHd.
  - apply HConn, IHd.
Qed.

Lemma encode_PList l :
  encode (PList l) =
  match encode_list l with Err e => Err e | Ok l' => Ok (PList l') end.
Proof.
  simpl. 
  assert (E : forall l, (fix go (l : list pyval) : result (list pyval) :=
               match l with
               | [] => Ok []
               | x :: l' =>
                   match encode x with
                   | Err e => Err e
                   | Ok x' => match go l' with
                              | Err e => Err e
                              | Ok r => Ok (x' :: r)
                              end
                   end
               end) l = encode_list l).
  { induction l0 as [|x l0 IH]; simpl; [reflexivity|]. now rewrite IH. }
  now rewrite E.
Qed.

Lemma encode_PDict d :
  encode (PDict d) =
  match encode_dict d with Err e => Err e | Ok d' => Ok (PDict d') end.
Proof.
  simpl.
  match goal with |- match ?f d with _ => _ end = _ =>
    assert (E : forall d, f d = encode_dict d) end.
  { induction d0 as [|[k x] d0 IH]; simpl; [reflexivity|]. now rewrite IH. }
  now rewrite E.
Qed.

Lemma encode_PDocument o p m :
  encode (PDocument o p m) =
  match encode_key p with
  | Err e => Err e
  | Ok p' => match encode_dict m with
             | Err e => Err e
             | Ok m' => Ok (PDict [("document.path", p');
                                   ("document.metadata", PDict m')])
             end
  end.
Proof.
  simpl. destruct (encode_key p); [|reflexivity].
  match goal with |- match ?f m with _ => _ end = _ =>
    assert (E : forall d, f d = encode_dict d) end.
  { induction d as [|[k x] d IH]; simpl; [reflexivity|]. now rewrite IH. }
  now rewrite E.
Qed.

Lemma encode_PConnection o s t m :
  encode (PConnection o s t m) =
  match encode_dict m with
  | Err e => Err e
  | Ok m' => Ok (PDict [("connection.source", PStr s);
                        ("connection.target", PStr t);
                        ("connection.metadata", PDict m')])
  end.
Proof.
  simpl.
  match goal with |- match ?f m with _ => _ end = _ =>
    assert (E : forall d, f d = encode_dict d) end.
  { induction d as [|[k x] d IH]; simpl; [reflexivity|]. now rewrite IH. }
  now rewrite E.
Qed.












(** ** Replaying a mapping through item assignment *)






(** ** What [save] writes *)








(** ** The hook on the records of the persistence file *)












(** ** Rebuilding the graph from node-link data *)

Lemma pykey_eqb_refl k : pykey_eqb k k = true.
Proof. destruct k; simpl; apply String.eqb_refl. Qed.

Lemma pykey_eqb_eq a b : pykey_eqb a b = true <-> a = b.
Proof.
  destruct a, b; simpl; try (split; [discriminate|congruence]);
    rewrite String.eqb_eq; split; congruence.
Qed.










Lemma find_some_existsb {A} (f : A -> bool) l :
  existsb f l = true -> exists x, find f l = Some x.
Proof.
  induction l as [|x l IH]; simpl; [discriminate|].
  destruct (f x); simpl; eauto.
Qed.



(** ** The reloaded graph *)
















Section RoundTrip.
Context {F text : Type} {Hfs : FS F text} {Hjson : Json text}.



End RoundTrip.

(* ===================================================================== *)
(** * The in-memory filesystem satisfies the adapter hypotheses           *)
(* ===================================================================== *)

Lemma MemFS_json_codec_ok : json_codec_ok (text := mtext).
Proof. intros j _. reflexivity. Qed.

Lemma MemFS_read_absent_fails (m : MemFS) : read_absent_fails m.
Proof.
  intros p. cbn. unfold mem_isfile.
  destruct (mem_lookup (key_text p) (mem_files m)); [discriminate|reflexivity].
Qed.



(** A graph built by [create_connection] has [Path] identifiers, which
    the encoder hands to [super().default]: [save] raises after the file
    was truncated. *)
Lemma path_identifiers_not_saved :
  snd (save ws_connected) = Err not_serializable.
Proof. reflexivity. Qed.

(* ===================================================================== *)
(** * Lookups, deletions and re-creation                                  *)
(* ===================================================================== *)

Section Store.
Context {F text : Type} {Hfs : FS F text} {Hjson : Json text}.

(** The comparison with a tuple never answers. *)
Lemma scan_connlist_raises source target l :
  exists e, scan_connlist source target l = Err e.
Proof. destruct l; simpl; eauto. Qed.

(** [get_connection] never returns a connection and never changes the
    workspace. *)
Lemma get_connection_raises (ws : Workspace F) source target :
  exists e, get_connection source target ws = (ws, Err e).
Proof.
  unfold get_connection, bind, lift, get_graph, raise.
  destruct (separate_path source) as [[u ?]|]; [|eauto].
  destruct (separate_path target) as [[v ?]|]; [|eauto].
  destruct (find_edge u v (graph ws)) as [e|]; [|eauto].
  destruct (scan_connlist_raises source target (connlist e)) as (x & ->).
  eauto.
Qed.

Lemma get_connection_no_edge (ws : Workspace F) source target u v ts tt' :
  separate_path source = Ok (u, ts) ->
  separate_path target = Ok (v, tt') ->
  has_edge u v (graph ws) = false ->
  get_connection source target ws
  = (ws, Err (ValueError (ConnectionNotInWorkspace source target))).
Proof.
  intros Hs Ht He. unfold get_connection, bind, lift, get_graph, raise.
  rewrite Hs, Ht. unfold has_edge in He.
  destruct (find_edge u v (graph ws)); [discriminate|reflexivity].
Qed.


Lemma get_connections_with_source_raises (ws : Workspace F) source :
  exists e, get_connections_with_source source ws = (ws, Err e)
            /\ (e = AttributeError "graph_nodes"
                \/ e = ValueError (InvalidPath source)).
Proof.
  unfold get_connections_with_source, separate_path, bind, lift,
    Workspace_graph_nodes, raise.
  destruct (split colon source) as [|a [|b [|c l]]]; eauto.
Qed.

Lemma get_connections_with_target_raises (ws : Workspace F) target :
  exists e, get_connections_with_target target ws = (ws, Err e)
            /\ (e = AttributeError "graph_nodes"
                \/ e = ValueError (InvalidPath target)).
Proof.
  unfold get_connections_with_target, separate_path, bind, lift,
    Workspace_graph_nodes, raise.
  destruct (split colon target) as [|a [|b [|c l]]]; eauto.
Qed.

(** Deleting or popping a metadata key stops at the first lookup of the
    connections: nothing is deleted, the key stays. *)
Lemma delitem_raises (ws : Workspace F) parent key :
  exists e, ProtectedMetadata_delitem parent key ws = (ws, Err e).
Proof.
  unfold ProtectedMetadata_delitem, _delete_connections, bind.
  destruct (get_connections_with_source_raises ws
              (key_text (doc_path parent) ++ ":" ++ key)%string)
    as (e & -> & _).
  eauto.
Qed.


Lemma lookup_set_node_same k d l :
  lookup_node k (set_node k d l) = Some d.
Proof.
  induction l as [|[k' d'] l IH]; simpl.
  - now rewrite pykey_eqb_refl.
  - destruct (pykey_eqb k' k) eqn:E; simpl; now rewrite E.
Qed.

Lemma lookup_set_node_other k k' d l :
  k' <> k -> lookup_node k' (set_node k d l) = lookup_node k' l.
Proof.
  intros Hne. induction l as [|[k0 d0] l IH]; simpl.
  - destruct (pykey_eqb k k') eqn:E; [|reflexivity].
    apply pykey_eqb_eq in E. congruence.
  - destruct (pykey_eqb k0 k) eqn:E; simpl.
    + apply pykey_eqb_eq in E. subst k0.
      destruct (pykey_eqb k k') eqn:E'; [|reflexivity].
      apply pykey_eqb_eq in E'. congruence.
    + now rewrite IH.
Qed.

Lemma has_node_lookup k g :
  has_node k g = match lookup_node k (nodes g) with
                 | Some _ => true | None => false end.
Proof.
  unfold has_node. induction (nodes g) as [|[k' d'] l IH]; simpl;
    [reflexivity|].
  destruct (pykey_eqb k' k); simpl; auto.
Qed.

(** C8.  [create_document(path)] on a path that is a node of the graph and
    has its backing file leaves the filesystem as it is and replaces the
    node's payload with a newly allocated [Document] whose metadata is
    empty, whatever the previous document held; every other node, the set
    of nodes, the edges and the workspace metadata are unchanged. *)
Theorem create_document_existing (ws : Workspace F) (p : pykey)
  (old : Document) :
  lookup_node p (nodes (graph ws)) = Some old ->
  fs_isfile (workspace ws) p = Ok true ->
  exists ws',
    create_document p ws = (ws', Ok (mkDocument (next_oid ws) p []))
    /\ workspace ws' = workspace ws
    /\ lookup_node p (nodes (graph ws'))
       = Some (mkDocument (next_oid ws) p [])
    /\ (forall k, k <> p ->
          lookup_node k (nodes (graph ws'))
          = lookup_node k (nodes (graph ws)))
    /\ (forall k, has_node k (graph ws') = has_node k (graph ws))
    /\ edges (graph ws') = edges (graph ws)
    /\ graph_meta (graph ws') = graph_meta (graph ws).
Proof.
  intros Hold Hfile.
  unfold create_document, new_Document, bind, fs_query, when, alloc,
    get_graph, set_graph, ret.
  rewrite Hfile.
  exists (mkWorkspace (workspace ws)
            (add_node p (mkDocument (next_oid ws) p []) (graph ws))
            (S (next_oid ws))).
  split; [reflexivity|].
  cbn [workspace graph next_oid add_node nodes edges graph_meta].
  split; [reflexivity|].
  split; [apply lookup_set_node_same|].
  split; [intros k Hk; now apply lookup_set_node_other|].
  split; [|split; reflexivity].
  intros k. rewrite !has_node_lookup.
  cbn [add_node nodes].
  destruct (pykey_eqb k p) eqn:E.
  - apply pykey_eqb_eq in E. subst k.
    now rewrite lookup_set_node_same, Hold.
  - rewrite lookup_set_node_other; [reflexivity|].
    intros ->. now rewrite pykey_eqb_refl in E.
Qed.

Lemma load_keeps_filesystem (ws : Workspace F) :
  workspace (fst (load ws)) = workspace ws.
Proof.
  unfold load, bind, fs_query, lift, set_graph, raise.
  destruct (fs_open_r (workspace ws) save_file) as [t|]; [|reflexivity].
  destruct (json_loads t) as [j|]; [|reflexivity].
  destruct (decode j (next_oid ws)) as [[v n]|]; [|reflexivity].
  cbn. destruct (node_link_graph v); reflexivity.
Qed.

(** C10.  [load] leaves the filesystem as it found it; for every document
    of the loaded graph whose backing file does not exist,
    [get_document] returns the document and [read_content] on it fails
    with the not-found error of the adapter. *)
Theorem load_writes_no_file (ws : Workspace F) (k : pykey)
  (doc : Document) :
  snd (load ws) = Ok tt ->
  lookup_node k (nodes (graph (fst (load ws)))) = Some doc ->
  fs_exists (workspace ws) (doc_path doc) = Ok false ->
  read_absent_fails (workspace ws) ->
  workspace (fst (load ws)) = workspace ws
  /\ get_document k (fst (load ws)) = (fst (load ws), Ok doc)
  /\ exists e, read_content doc (fst (load ws)) = (fst (load ws), Err e)
               /\ is_NotFound e = true.
Proof.
  intros _ Hk Hex Habs.
  split; [apply load_keeps_filesystem|]. split.
  - unfold get_document, bind, get_graph, ret. cbv beta iota.
    now rewrite Hk.
  - exists (ResourceNotFound (doc_path doc)). split; [|reflexivity].
    unfold read_content, fs_query. rewrite load_keeps_filesystem.
    now rewrite (Habs _ Hex).
Qed.
End Store.

(* ===================================================================== *)
(** * Creating documents and connections                                  *)
(* ===================================================================== *)

(** Equality of two connections looks at source and target only. *)
Lemma Connection_eq_ignores_metadata c c' m m' :
  Connection_eq (mkConnection (conn_oid c) (conn_source c) (conn_target c) m)
                (OConnection (mkConnection (conn_oid c') (conn_source c')
                                           (conn_target c') m'))
  = Connection_eq c (OConnection c').
Proof. reflexivity. Qed.

Section Creation.
Context {F text : Type} {Hfs : FS F text}.

(** Whenever [create_document] returns, the new document is a fresh one
    with empty metadata and the graph differs by [add_node] only. *)
Lemma create_document_graph (ws ws' : Workspace F) p doc :
  create_document p ws = (ws', Ok doc) ->
  doc = mkDocument (next_oid ws) p []
  /\ graph ws' = add_node p doc (graph ws)
  /\ next_oid ws' = S (next_oid ws).
Proof.
  unfold create_document, new_Document, bind, fs_query, when, alloc,
    get_graph, set_graph, ret, lift, fs_update.
  destruct (fs_isfile (workspace ws) p) as [[|]|]; cbn.
  - intros [= <- <-]. auto.
  - destruct (path_dirname p) as [dir|]; [|discriminate].
    destruct (fs_exists (workspace ws) dir) as [[|]|]; cbn.
    + destruct (fs_create (workspace ws) p) as [[fs' b]|]; cbn;
        [|discriminate].
      intros [= <- <-]. auto.
    + destruct (fs_makedirs (workspace ws) dir) as [fs1|]; cbn;
        [|discriminate].
      destruct (fs_create fs1 p) as [[fs' b]|]; cbn; [|discriminate].
      intros [= <- <-]. auto.
    + discriminate.
  - discriminate.
Qed.

Lemma get_or_create_document_edges (ws ws' : Workspace F) p doc :
  get_or_create_document p ws = (ws', Ok doc) ->
  edges (graph ws') = edges (graph ws)
  /\ has_node p (graph ws') = true.
Proof.
  unfold get_or_create_document, bind, get_graph, ret.
  cbv beta iota.
  destruct (lookup_node p (nodes (graph ws))) as [d|] eqn:E.
  - intros [= <- <-]. split; [reflexivity|].
    rewrite has_node_lookup. now rewrite E.
  - intros H. apply create_document_graph in H as (-> & -> & _).
    split; [reflexivity|].
    rewrite has_node_lookup. cbn [add_node nodes].
    now rewrite lookup_set_node_same.
Qed.

Lemma ensure_tag_edges (ws ws' : Workspace F) doc tag r :
  ensure_tag doc tag ws = (ws', r) ->
  edges (graph ws') = edges (graph ws).
Proof.
  unfold ensure_tag, bind, get_graph, when, set_graph, ret.
  destruct tag as [t|]; cbv beta iota.
  - destruct (negb (String.eqb t EmptyString)
              && negb (dict_has t (live_metadata doc (graph ws))));
      intros [= <- _]; reflexivity.
  - intros [= <- _]; reflexivity.
Qed.

Lemma find_set_connlist u v cl g e :
  find_edge u v g = Some e ->
  find_edge u v (set_connlist u v cl g)
  = Some (mkEdge (edge_u e) (edge_v e) cl).
Proof.
  unfold find_edge, set_connlist. cbn [edges].
  induction (edges g) as [|e0 l IH]; simpl; [discriminate|].
  destruct (joins u v e0) eqn:E.
  - intros [= ->]. 
    change (joins u v (mkEdge (edge_u e) (edge_v e) cl)) with (joins u v e).
    now rewrite E.
  - rewrite E. apply IH.
Qed.

Lemma find_add_edge u v cl g :
  find_edge u v g = None ->
  find_edge u v (add_edge u v cl g) = Some (mkEdge u v cl).
Proof.
  intros H. unfold add_edge, has_edge. rewrite H.
  unfold find_edge in *. cbn [edges].
  induction (edges g) as [|e0 l IH]; simpl in *.
  - unfold joins. cbn. now rewrite !pykey_eqb_refl.
  - destruct (joins u v e0); [discriminate|]. now apply IH.
Qed.

(** [create_connection]: the first connection between two documents
    creates the edge with a one-element list, a later one is appended to
    the edge's list. *)
Lemma create_connection_edge (ws ws' : Workspace F) source target conn
      u v ts tt' :
  separate_path source = Ok (u, ts) ->
  separate_path target = Ok (v, tt') ->
  create_connection source target ws = (ws', Ok conn) ->
  conn = mkConnection (next_oid ws) source target []
  /\ exists e',
       find_edge u v (graph ws') = Some e'
       /\ connlist e'
          = match find_edge u v (graph ws) with
            | Some e => connlist e ++ [conn]
            | None => [conn]
            end.
Proof.
  intros Hs Ht.
  unfold create_connection, new_Connection.
  unfold bind at 1 2. unfold alloc, ret. cbv beta iota.
  unfold bind at 1. unfold lift at 1. rewrite Hs. cbv beta iota.
  unfold bind at 1. unfold lift at 1. rewrite Ht. cbv beta iota.
  unfold bind at 1.
  match goal with |- context [get_or_create_document u ?w] =>
    set (w0 := w); destruct (get_or_create_document u w0)
      as [w1 [d1|]] eqn:E1 end; [|discriminate].
  apply get_or_create_document_edges in E1 as [E1 _].
  unfold bind at 1.
  destruct (get_or_create_document v w1) as [w2 [d2|]] eqn:E2; [|discriminate].
  apply get_or_create_document_edges in E2 as [E2 _].
  unfold bind at 1.
  destruct (ensure_tag d1 ts w2) as [w3 [[]|]] eqn:E3; [|discriminate].
  apply ensure_tag_edges in E3.
  unfold bind at 1.
  destruct (ensure_tag d2 tt' w3) as [w4 [[]|]] eqn:E4; [|discriminate].
  apply ensure_tag_edges in E4.
  assert (Hedges : edges (graph w4) = edges (graph ws)).
  { rewrite E4, E3, E2, E1. reflexivity. }
  unfold bind, get_graph, set_graph, ret. cbv beta iota.
  assert (Hfind : find_edge u v (graph w4) = find_edge u v (graph ws)).
  { unfold find_edge. now rewrite Hedges. }
  rewrite <- Hfind.
  destruct (find_edge u v (graph w4)) as [e|] eqn:Ef;
    intros [= <- <-]; cbn [graph]; (split; [reflexivity|]).
  - eexists. split; [eapply find_set_connlist; exact Ef|]. reflexivity.
  - eexists. split; [apply find_add_edge; exact Ef|]. reflexivity.
Qed.
End Creation.

(* ===================================================================== *)
(** * The claims on concrete workspaces                                   *)
(* ===================================================================== *)


(** C8 on the workspace whose document d1 carries the tag [t]. *)
Lemma create_document_existing_witness :
  exists ws',
    create_document (KStr "d1") ws_tagged
    = (ws', Ok (mkDocument (next_oid ws_tagged) (KStr "d1") []))
    /\ workspace ws' = workspace ws_tagged
    /\ lookup_node (KStr "d1") (nodes (graph ws'))
       = Some (mkDocument (next_oid ws_tagged) (KStr "d1") [])
    /\ (forall k, k <> KStr "d1" ->
          lookup_node k (nodes (graph ws'))
          = lookup_node k (nodes (graph ws_tagged)))
    /\ (forall k, has_node k (graph ws') = has_node k (graph ws_tagged))
    /\ edges (graph ws') = edges (graph ws_tagged)
    /\ graph_meta (graph ws') = graph_meta (graph ws_tagged).
Proof.
  apply (create_document_existing ws_tagged (KStr "d1")
           (mkDocument 0 (KStr "d1") [("t", PInt 1)])).
  - reflexivity.
  - reflexivity.
Defined.

(** C10 on a saved store whose documents have no file. *)
Lemma load_writes_no_file_witness :
  workspace (fst (load ws_saved_without_files))
  = workspace ws_saved_without_files
  /\ get_document (KStr "d1") (fst (load ws_saved_without_files))
     = (fst (load ws_saved_without_files),
        Ok (mkDocument 4 (KStr "d1") [("title", PStr "one")]))
  /\ exists e,
       read_content (mkDocument 4 (KStr "d1") [("title", PStr "one")])
                    (fst (load ws_saved_without_files))
       = (fst (load ws_saved_without_files), Err e)
       /\ is_NotFound e = true.
Proof.
  apply (load_writes_no_file ws_saved_without_files (KStr "d1")
           (mkDocument 4 (KStr "d1") [("title", PStr "one")])).
  - reflexivity.
  - reflexivity.
  - reflexivity.
  - apply MemFS_read_absent_fails.
Defined.

(** C2 on the code.  Deleting or popping the key [t] of document d1
    raises [AttributeError] at [self.graph_nodes], whether no connection
    refers to the tag or the connection d1:t -> d2 does: the workspace is
    unchanged, the key is still there and so is the connection. *)
Theorem delete_tag_stops_at_graph_nodes :
  del_metadata_key (KStr "d1") "t" ws_tagged
  = (ws_tagged, Err (AttributeError "graph_nodes"))
  /\ pop_metadata_key (KStr "d1") "t" ws_tagged
     = (ws_tagged, Err (AttributeError "graph_nodes"))
  /\ del_metadata_key (Path "d1") "t" ws_tag_connected
     = (ws_tag_connected, Err (AttributeError "graph_nodes"))
  /\ (exists d,
        lookup_node (Path "d1") (nodes (graph ws_tag_connected)) = Some d
                /\ dict_has "t" (doc_metadata d) = true)
  /\ (exists e c,
        find_edge (Path "d1") (Path "d2") (graph ws_tag_connected) = Some e
                  /\ connlist e = [c] /\ conn_source c = "d1:t").
Proof.
  repeat split; try reflexivity.
  - eexists. split; reflexivity.
  - eexists. eexists. repeat split; reflexivity.
Qed.

(** C3 on the code.  With the single connection d1 -> d2 in the edge's
    list, [get_connection("d1", "d2")] raises [TypeError] at the
    [isinstance] test of [Connection.__eq__] instead of returning the
    connection, and [get_connection("d2", "d1")] raises the same error
    instead of the not-found error. *)
Theorem get_connection_stops_at_isinstance :
  (exists e c,
     find_edge (Path "d1") (Path "d2") (graph ws_connected) = Some e
     /\ connlist e = [c] /\ conn_source c = "d1" /\ conn_target c = "d2")
  /\ get_connection "d1" "d2" ws_connected
     = (ws_connected, Err isinstance_error)
  /\ get_connection "d2" "d1" ws_connected
     = (ws_connected, Err isinstance_error).
Proof.
  repeat split; try reflexivity.
  eexists. eexists. repeat split; reflexivity.
Qed.

(** C4 on the code.  [get_connections_with_source] and
    [get_connections_with_target] raise [AttributeError] at
    [self.graph_nodes], for a document that is a node and for one that is
    not. *)
Theorem get_connections_with_stop_at_graph_nodes :
  has_node (Path "d1") (graph ws_connected) = true
  /\ has_node (Path "d2") (graph ws_connected) = true
  /\ has_node (Path "d9") (graph ws_connected) = false
  /\ get_connections_with_source "d1" ws_connected
     = (ws_connected, Err (AttributeError "graph_nodes"))
  /\ get_connections_with_target "d2" ws_connected
     = (ws_connected, Err (AttributeError "graph_nodes"))
  /\ get_connections_with_source "d9" ws_connected
     = (ws_connected, Err (AttributeError "graph_nodes")).
Proof. repeat split; reflexivity. Qed.

(** C5 on the code.  Deleting the only connection d1 -> d2 raises
    [TypeError] inside [get_connection]; the connection and the edge stay. *)
Theorem delete_connection_leaves_edge :
  (exists e c,
     find_edge (Path "d1") (Path "d2") (graph ws_connected) = Some e
     /\ connlist e = [c] /\ conn_source c = "d1" /\ conn_target c = "d2")
  /\ delete_connection "d1" "d2" ws_connected
     = (ws_connected, Err isinstance_error)
  /\ has_edge (Path "d1") (Path "d2")
       (graph (fst (delete_connection "d1" "d2" ws_connected))) = true.
Proof.
  repeat split; try reflexivity.
  eexists. eexists. repeat split; reflexivity.
Qed.

(** C9 on the code.  With two connections d1 -> d2 in one list,
    [get_connection], [update_connection] and [delete_connection] raise
    [TypeError] at the first comparison; no duplicate is returned, updated
    or removed. *)
Theorem duplicates_stop_at_isinstance :
  (exists e c1 c2,
     find_edge (Path "d1") (Path "d2") (graph ws_duplicates) = Some e
     /\ connlist e = [c1; c2]
     /\ conn_source c1 = "d1" /\ conn_target c1 = "d2"
     /\ conn_source c2 = "d1" /\ conn_target c2 = "d2"
     /\ conn_oid c1 <> conn_oid c2)
  /\ get_connection "d1" "d2" ws_duplicates
     = (ws_duplicates, Err isinstance_error)
  /\ update_connection "d1" "d2" [("k", PInt 1)] ws_duplicates
     = (ws_duplicates, Err isinstance_error)
  /\ delete_connection "d1" "d2" ws_duplicates
     = (ws_duplicates, Err isinstance_error).
Proof.
  repeat split; try reflexivity.
  eexists. eexists. eexists. repeat split; try reflexivity.
  cbn. discriminate.
Qed.

(* ===================================================================== *)
(** * Addresses built from a document path and a tag                      *)
(* ===================================================================== *)




(* ===================================================================== *)
(** * Metadata mappings: lookup after update                              *)
(* ===================================================================== *)

Lemma dict_get_set k k' v (d : dict) :
  dict_get k (dict_set k' v d)
  = if String.eqb k' k then Some v else dict_get k d.
Proof.
  induction d as [|[k0 v0] d IH]; simpl.
  - reflexivity.
  - destruct (String.eqb k0 k') eqn:E0; simpl.
    + apply String.eqb_eq in E0. subst k0.
      destruct (String.eqb k' k); reflexivity.
    + rewrite IH. destruct (String.eqb k0 k) eqn:E1; [|reflexivity].
      apply String.eqb_eq in E1. subst k0. now rewrite String.eqb_sym, E0.
Qed.

Lemma dict_get_absent k (d : dict) :
  dict_has k d = false -> dict_get k d = None.
Proof.
  induction d as [|[k0 v0] d IH]; simpl; [reflexivity|].
  destruct (String.eqb k0 k); simpl; [discriminate|assumption].
Qed.

Lemma dict_get_update k (m : dict) : forall d : dict,
  distinct_keys m = true ->
  dict_get k (dict_update d m)
  = match dict_get k m with Some v => Some v | None => dict_get k d end.
Proof.
  induction m as [|[k1 v1] m IH]; intros d Hm; [reflexivity|].
  simpl in Hm. apply andb_true_iff in Hm as [Hk Hm].
  apply negb_true_iff in Hk.
  change (dict_update d ((k1, v1) :: m))
    with (dict_update (dict_set k1 v1 d) m).
  rewrite (IH _ Hm), dict_get_set. simpl.
  destruct (String.eqb k1 k) eqn:E; [|reflexivity].
  apply String.eqb_eq in E. subst k1.
  now rewrite (dict_get_absent _ _ Hk).
Qed.

Lemma lookup_mutate_document k oid f g :
  lookup_node k (nodes (mutate_document oid f g))
  = match lookup_node k (nodes g) with
    | Some d =>
        Some (if Nat.eqb (doc_oid d) oid
              then mkDocument oid (doc_path d) (f (doc_metadata d))
              else d)
    | None => None
    end.
Proof.
  unfold mutate_document. cbn [nodes].
  induction (nodes g) as [|[k0 d0] l IH]; [reflexivity|].
  cbn [map fst snd].
  destruct (Nat.eqb (doc_oid d0) oid) eqn:E; cbn [lookup_node];
    destruct (pykey_eqb k0 k); try assumption; now rewrite ?E.
Qed.

Section Documents.
Context {F text : Type} {Hfs : FS F text}.

Lemma get_or_create_document_lookup (ws ws' : Workspace F) p doc :
  get_or_create_document p ws = (ws', Ok doc) ->
  lookup_node p (nodes (graph ws')) = Some doc.
Proof.
  unfold get_or_create_document, bind, get_graph, ret. cbv beta iota.
  destruct (lookup_node p (nodes (graph ws))) as [d|] eqn:E.
  - now intros [= <- <-].
  - intros H. apply create_document_graph in H as (-> & -> & _).
    cbn [add_node nodes]. apply lookup_set_node_same.
Qed.

(** X2. A document that [create_document] returned is the one [get_document]
    and [get_or_create_document] return for that path afterwards, and
    neither call changes anything. *)
Theorem create_document_then_lookup (ws ws' : Workspace F) (p : pykey)
  (doc : Document) :
  create_document p ws = (ws', Ok doc) ->
  get_document p ws' = (ws', Ok doc)
  /\ get_or_create_document p ws' = (ws', Ok doc).
Proof.
  intros H. apply create_document_graph in H as (Hd & Hg & _).
  assert (L : lookup_node p (nodes (graph ws')) = Some doc).
  { rewrite Hg. cbn [add_node nodes]. apply lookup_set_node_same. }
  unfold get_document, get_or_create_document, bind, get_graph, ret.
  cbv beta iota. now rewrite L.
Qed.

(** X3. [update_document] merges: afterwards a key of the given mapping has
    the given value, every other key has the value it had; the document
    keeps its path and identity, documents that are other objects and the
    edges, workspace metadata and filesystem are untouched. *)
Theorem update_document_merges (ws : Workspace F) (p : pykey)
  (d : Document) (m : dict) :
  lookup_node p (nodes (graph ws)) = Some d ->
  distinct_keys m = true ->
  exists ws' d',
    update_document p m ws = (ws', Ok tt)
    /\ workspace ws' = workspace ws
    /\ edges (graph ws') = edges (graph ws)
    /\ graph_meta (graph ws') = graph_meta (graph ws)
    /\ lookup_node p (nodes (graph ws')) = Some d'
    /\ doc_path d' = doc_path d
    /\ doc_oid d' = doc_oid d
    /\ (forall k, dict_get k (doc_metadata d')
                  = match dict_get k m with
                    | Some v => Some v
                    | None => dict_get k (doc_metadata d)
                    end)
    /\ (forall k d0, lookup_node k (nodes (graph ws)) = Some d0 ->
                     doc_oid d0 <> doc_oid d ->
                     lookup_node k (nodes (graph ws')) = Some d0).
Proof.
  intros Hd Hm.
  unfold update_document, get_document, Document_update_metadata, bind,
    get_graph, set_graph, ret. cbv beta iota. rewrite Hd. cbv beta iota.
  destruct m as [|kv m].
  - exists ws, d. repeat split; auto.
  - set (m' := kv :: m) in *.
    eexists. exists (mkDocument (doc_oid d) (doc_path d)
                       (dict_update (doc_metadata d) m')).
    split; [reflexivity|]. cbn [workspace graph].
    split; [reflexivity|]. split; [reflexivity|]. split; [reflexivity|].
    split.
    { rewrite lookup_mutate_document, Hd. now rewrite Nat.eqb_refl. }
    split; [reflexivity|]. split; [reflexivity|]. split.
    { intros k. cbn [doc_metadata]. now apply dict_get_update. }
    intros k d0 H0 Hne. rewrite lookup_mutate_document, H0.
    destruct (Nat.eqb (doc_oid d0) (doc_oid d)) eqn:E; [|reflexivity].
    apply Nat.eqb_eq in E. contradiction.
Qed.

(** X4. [Workspace.update_metadata] merges into the workspace metadata in
    the same way and touches neither nodes, edges nor the filesystem. *)
Theorem Workspace_update_metadata_merges (ws : Workspace F) (d m : dict) :
  graph_meta (graph ws) = PDict d ->
  distinct_keys m = true ->
  exists ws' d',
    Workspace_update_metadata m ws = (ws', Ok tt)
    /\ workspace ws' = workspace ws
    /\ nodes (graph ws') = nodes (graph ws)
    /\ edges (graph ws') = edges (graph ws)
    /\ graph_meta (graph ws') = PDict d'
    /\ forall k, dict_get k d'
                 = match dict_get k m with
                   | Some v => Some v
                   | None => dict_get k d
                   end.
Proof.
  intros Hd Hm. unfold Workspace_update_metadata.
  destruct m as [|kv m].
  - exists ws, d. repeat split; auto.
  - unfold bind, get_graph, set_graph. cbv beta iota. rewrite Hd.
    eexists. eexists. split; [reflexivity|].
    cbn [workspace graph nodes edges graph_meta].
    repeat split. intros k. now apply dict_get_update.
Qed.

(** X5. With a filesystem that reads back what was written, the content
    written by [write_document] is what [read_content] returns on the
    document [get_document] finds at that path. *)
Theorem write_document_then_read (ws ws' : Workspace F) (p : pykey)
  (content : text) :
  (forall fs q t fs', fs_write fs q t = Ok fs' -> fs_open_r fs' q = Ok t) ->
  write_document p content ws = (ws', Ok tt) ->
  exists doc,
    get_document p ws' = (ws', Ok doc)
    /\ read_content doc ws' = (ws', Ok content).
Proof.
  intros Hlaw. unfold write_document. unfold bind at 1.
  destruct (get_or_create_document p ws) as [w1 [doc|]] eqn:E; [|discriminate].
  apply get_or_create_document_lookup in E.
  unfold write_content, bind, fs_update.
  destruct (fs_open_w (workspace w1) (doc_path doc)) as [fs1|]; [|discriminate].
  cbn [workspace graph next_oid].
  destruct (fs_write fs1 (doc_path doc) content) as [fs2|] eqn:Ew;
    [|discriminate].
  intros [= <-]. exists doc. split.
  - unfold get_document, bind, get_graph, ret. cbv beta iota.
    cbn [graph]. now rewrite E.
  - unfold read_content, fs_query. cbn [workspace].
    now rewrite (Hlaw _ _ _ _ Ew).
Qed.
End Documents.

(* ===================================================================== *)
(** * Deleting a document                                                 *)
(* ===================================================================== *)

Lemma lookup_node_filter_other p k l :
  k <> p ->
  lookup_node k (filter (fun kd => negb (pykey_eqb (fst kd) p)) l)
  = lookup_node k l.
Proof.
  intros Hne. induction l as [|[k0 d0] l IH]; simpl; [reflexivity|].
  destruct (pykey_eqb k0 p) eqn:E; simpl.
  - apply pykey_eqb_eq in E. subst k0.
    destruct (pykey_eqb p k) eqn:E'; [|assumption].
    apply pykey_eqb_eq in E'. congruence.
  - now rewrite IH.
Qed.

Lemma has_node_removed p l :
  existsb (fun kd => pykey_eqb (fst kd) p)
          (filter (fun kd : pykey * Document => negb (pykey_eqb (fst kd) p)) l)
  = false.
Proof.
  induction l as [|[k0 d0] l IH]; simpl; [reflexivity|].
  destruct (pykey_eqb k0 p) eqn:E; simpl; [assumption|]. now rewrite E.
Qed.

Lemma find_edge_filter_other p u v l :
  u <> p -> v <> p ->
  find (joins u v) (filter (fun e => negb (incident p e)) l)
  = find (joins u v) l.
Proof.
  intros Hu Hv. induction l as [|e l IH]; simpl; [reflexivity|].
  destruct (incident p e) eqn:Ei; simpl.
  - destruct (joins u v e) eqn:Ej; [|assumption].
    exfalso. unfold incident, joins in *.
    rewrite orb_true_iff, !andb_true_iff, !pykey_eqb_eq in *.
    destruct Ei as [Ei|Ei], Ej as [[E1 E2]|[E1 E2]]; congruence.
  - now rewrite IH.
Qed.

Lemma find_edge_filter_incident p u v l :
  u = p \/ v = p ->
  find (joins u v) (filter (fun e => negb (incident p e)) l) = None.
Proof.
  intros Hp. induction l as [|e l IH]; simpl; [reflexivity|].
  destruct (incident p e) eqn:Ei; simpl; [assumption|].
  destruct (joins u v e) eqn:Ej; [|assumption].
  exfalso. unfold incident, joins in *.
  rewrite orb_false_iff in Ei. destruct Ei as [Ei1 Ei2].
  rewrite orb_true_iff, !andb_true_iff, !pykey_eqb_eq in Ej.
  destruct Hp as [-> | ->], Ej as [[E1 E2]|[E1 E2]]; subst;
    rewrite pykey_eqb_refl in *; discriminate.
Qed.

Section Deletion.
Context {F text : Type} {Hfs : FS F text}.

(** X6. [delete_document(path, in_filesystem=False)] on a node of the graph
    removes the node and every edge that touches it; every other node keeps
    its document, every edge between other nodes is kept as it is, and the
    workspace metadata and the filesystem are untouched. *)
Theorem delete_document_removes_node_and_edges (ws : Workspace F)
  (p : pykey) :
  has_node p (graph ws) = true ->
  exists ws',
    delete_document p false ws = (ws', Ok tt)
    /\ workspace ws' = workspace ws
    /\ graph_meta (graph ws') = graph_meta (graph ws)
    /\ has_node p (graph ws') = false
    /\ (forall k, k <> p ->
          lookup_node k (nodes (graph ws'))
          = lookup_node k (nodes (graph ws)))
    /\ (forall u v, u <> p -> v <> p ->
          find_edge u v (graph ws') = find_edge u v (graph ws))
    /\ (forall u, has_edge u p (graph ws') = false
                  /\ has_edge p u (graph ws') = false).
Proof.
  intros Hn.
  unfold delete_document, bind, when, get_graph, set_graph, ret.
  cbv beta iota. rewrite Hn.
  eexists. split; [reflexivity|].
  cbn [workspace graph remove_node nodes edges graph_meta].
  split; [reflexivity|]. split; [reflexivity|]. split.
  { unfold has_node. cbn [nodes]. apply has_node_removed. }
  split.
  { intros k Hk. now apply lookup_node_filter_other. }
  split.
  { intros u v Hu Hv. unfold find_edge. cbn [edges].
    now apply find_edge_filter_other. }
  intros u. unfold has_edge, find_edge, remove_node. cbn [edges].
  rewrite (find_edge_filter_incident p u p), (find_edge_filter_incident p p u);
    auto.
Qed.

Lemma recurse_remove_empty_frame depth : forall dir (ws : Workspace F),
  graph (fst (recurse_remove_empty depth dir ws)) = graph ws
  /\ next_oid (fst (recurse_remove_empty depth dir ws)) = next_oid ws.
Proof.
  induction depth as [|depth IH]; intros dir ws; [split; reflexivity|].
  cbn [recurse_remove_empty].
  unfold bind, fs_query, when, fs_update, ret.
  destruct (fs_isempty (workspace ws) dir) as [[|]|]; cbn;
    try (split; reflexivity).
  destruct (fs_removedir (workspace ws) dir) as [fs1|]; cbn;
    [|split; reflexivity].
  destruct (fs_attr_path_dirname fs1 dir) as [parent|]; cbn;
    [|split; reflexivity].
  apply (IH parent (mkWorkspace fs1 (graph ws) (next_oid ws))).
Qed.

Lemma delete_document_graph (ws : Workspace F) (p : pykey)
  (in_filesystem : bool) :
  graph (fst (delete_document p in_filesystem ws))
  = match snd (delete_document p in_filesystem ws) with
    | Ok _ => if has_node p (graph ws) then remove_node p (graph ws)
              else graph ws
    | Err _ => graph ws
    end.
Proof.
  unfold delete_document. generalize recursion_limit. intros depth.
  unfold bind, fs_query, when, fs_update, lift, get_graph, set_graph, ret.
  destruct in_filesystem.
  - destruct (fs_exists (workspace ws) p) as [[|]|]; cbv beta iota.
    + destruct (fs_remove (workspace ws) p) as [fs1|]; [|reflexivity].
      cbn [workspace graph next_oid].
      destruct (path_dirname p) as [dir|]; [|reflexivity].
      pose proof (recurse_remove_empty_frame depth dir
                    (mkWorkspace fs1 (graph ws) (next_oid ws))) as [H _].
      destruct (recurse_remove_empty depth dir
                  (mkWorkspace fs1 (graph ws) (next_oid ws))) as [w [[]|]];
        cbn [fst snd graph] in *.
      * rewrite H. destruct (has_node p (graph ws)); cbn; congruence.
      * exact H.
    + destruct (has_node p (graph ws)); reflexivity.
    + reflexivity.
  - cbv beta iota. destruct (has_node p (graph ws)); reflexivity.
Qed.

(** X7. [delete_document] removes the node exactly when it returns: if the
    filesystem part raises, the graph is as before, even when the file was
    already removed; if it returns, the graph is the old one without the
    node (and its edges). *)
Theorem delete_document_graph_outcome (ws : Workspace F) (p : pykey)
  (in_filesystem : bool) :
  graph (fst (delete_document p in_filesystem ws))
  = match snd (delete_document p in_filesystem ws) with
    | Ok _ => if has_node p (graph ws) then remove_node p (graph ws)
              else graph ws
    | Err _ => graph ws
    end.
Proof. exact (delete_document_graph ws p in_filesystem). Qed.
End Deletion.

(* ===================================================================== *)
(** * What the encoder refuses                                            *)
(* ===================================================================== *)

Lemma path_free_PList l : path_free (PList l) = forallb path_free l.
Proof.
  simpl. induction l as [|x l IH]; simpl; [reflexivity|]. now rewrite IH.
Qed.

Lemma path_free_fix d :
  (fix go (d : list (string * pyval)) : bool :=
     match d with
     | [] => true
     | (_, x) :: d' => path_free x && go d'
     end) d = forallb (fun kv => path_free (snd kv)) d.
Proof.
  induction d as [|[k x] d IH]; simpl; [reflexivity|]. now rewrite IH.
Qed.

Lemma path_free_PDict d :
  path_free (PDict d) = forallb (fun kv => path_free (snd kv)) d.
Proof. simpl. apply path_free_fix. Qed.

Lemma path_free_PDocument o p m :
  path_free (PDocument o p m)
  = is_str_key p && forallb (fun kv => path_free (snd kv)) m.
Proof. simpl. now rewrite path_free_fix. Qed.

Lemma path_free_PConnection o s t m :
  path_free (PConnection o s t m)
  = forallb (fun kv => path_free (snd kv)) m.
Proof. simpl. apply path_free_fix. Qed.

Lemma encode_dict_outcome d :
  Forall (fun kv =>
            match encode (snd kv) with
            | Ok _ => path_free (snd kv) = true
            | Err e => e = not_serializable /\ path_free (snd kv) = false
            end) d ->
  match encode_dict d with
  | Ok _ => forallb (fun kv => path_free (snd kv)) d = true
  | Err e => e = not_serializable
             /\ forallb (fun kv => path_free (snd kv)) d = false
  end.
Proof.
  induction 1 as [|[k x] d Hx _ IH]; cbn [encode_dict forallb snd] in *;
    [reflexivity|].
  destruct (encode x) as [x'|e].
  - rewrite Hx. destruct (encode_dict d) as [d'|e']; cbn [andb]; exact IH.
  - destruct Hx as [-> ->]. split; reflexivity.
Qed.

Lemma encode_list_outcome l :
  Forall (fun x =>
            match encode x with
            | Ok _ => path_free x = true
            | Err e => e = not_serializable /\ path_free x = false
            end) l ->
  match encode_list l with
  | Ok _ => forallb path_free l = true
  | Err e => e = not_serializable /\ forallb path_free l = false
  end.
Proof.
  induction 1 as [|x l Hx _ IH]; cbn [encode_list forallb] in *;
    [reflexivity|].
  destruct (encode x) as [x'|e].
  - rewrite Hx. destruct (encode_list l) as [l'|e']; cbn [andb]; exact IH.
  - destruct Hx as [-> ->]. split; reflexivity.
Qed.

Lemma encode_outcome (v : pyval) :
  match encode v with
  | Ok _ => path_free v = true
  | Err e => e = not_serializable /\ path_free v = false
  end.
Proof.
  induction v as [| | | | |l IH|d IH|o p m IH|o s t m IH]
    using pyval_nested_ind; try (simpl; auto; fail).
  - rewrite encode_PList, path_free_PList.
    pose proof (encode_list_outcome l IH) as H.
    destruct (encode_list l); exact H.
  - rewrite encode_PDict, path_free_PDict.
    pose proof (encode_dict_outcome d IH) as H.
    destruct (encode_dict d); exact H.
  - rewrite encode_PDocument, path_free_PDocument.
    pose proof (encode_dict_outcome m IH) as H.
    destruct p as [x|x]; cbn [encode_key is_str_key andb].
    + destruct (encode_dict m); exact H.
    + split; reflexivity.
  - rewrite encode_PConnection, path_free_PConnection.
    pose proof (encode_dict_outcome m IH) as H.
    destruct (encode_dict m); exact H.
Qed.


Lemma path_free_node_link_data g k d :
  In (k, d) (nodes g) -> is_str_key k = false ->
  path_free (node_link_data g) = false.
Proof.
  intros Hin Hk. unfold node_link_data.
  rewrite path_free_PDict. cbn [forallb snd].
  assert (E : path_free (PList (map node_record (nodes g))) = false).
  { rewrite path_free_PList.
    apply not_true_is_false. intros H.
    rewrite forallb_forall in H.
    specialize (H (node_record (k, d)) (in_map _ _ _ Hin)).
    unfold node_record in H. rewrite path_free_PDict in H.
    cbn [forallb snd fst] in H.
    destruct k; [discriminate Hk|].
    cbn in H. rewrite andb_false_r in H. discriminate H. }
  rewrite E. now rewrite !andb_false_r.
Qed.

Lemma lookup_node_In k l d :
  lookup_node k l = Some d -> In (k, d) l.
Proof.
  induction l as [|[k0 d0] l IH]; simpl; [discriminate|].
  destruct (pykey_eqb k0 k) eqn:E.
  - intros [= ->]. apply pykey_eqb_eq in E. subst. now left.
  - intros H. right. now apply IH.
Qed.

Lemma separate_path_key a u t :
  separate_path a = Ok (u, t) -> is_str_key u = false.
Proof.
  unfold separate_path.
  destruct (split colon a) as [|x [|y [|z l]]]; intros [= <- _]; reflexivity.
Qed.

Section Saving.
Context {F text : Type} {Hfs : FS F text} {Hjson : Json text}.

(** X9. [save] never changes the graph or allocates, whatever its outcome. *)
Theorem save_keeps_graph (ws : Workspace F) :
  graph (fst (save ws)) = graph ws
  /\ next_oid (fst (save ws)) = next_oid ws.
Proof.
  unfold save, bind, fs_query, when, fs_update, get_graph, lift, ret.
  destruct (fs_exists (workspace ws) save_file) as [[|]|];
    cbn [negb]; cbv beta iota; [| |split; reflexivity].
  - destruct (fs_open_w (workspace ws) save_file) as [fs1|];
      cbn [workspace graph next_oid]; [|split; reflexivity].
    destruct (encode (node_link_data (graph ws))) as [j|];
      cbn [workspace graph next_oid]; [|split; reflexivity].
    destruct (fs_write fs1 save_file (json_dumps j)); split; reflexivity.
  - destruct (fs_touch (workspace ws) save_file) as [fs0|];
      cbn [workspace graph next_oid]; [|split; reflexivity].
    destruct (fs_open_w fs0 save_file) as [fs1|];
      cbn [workspace graph next_oid]; [|split; reflexivity].
    destruct (encode (node_link_data (graph ws))) as [j|];
      cbn [workspace graph next_oid]; [|split; reflexivity].
    destruct (fs_write fs1 save_file (json_dumps j)); split; reflexivity.
Qed.

Lemma save_raises_if_encode_raises (ws : Workspace F) e :
  encode (node_link_data (graph ws)) = Err e ->
  exists e', snd (save ws) = Err e'.
Proof.
  intros He.
  unfold save, bind, fs_query, when, fs_update, get_graph, lift, ret.
  destruct (fs_exists (workspace ws) save_file) as [[|]|];
    cbn [negb]; cbv beta iota; [| |eexists; reflexivity].
  - destruct (fs_open_w (workspace ws) save_file) as [fs1|];
      cbn [workspace graph next_oid]; [|eexists; reflexivity].
    rewrite He. eexists; reflexivity.
  - destruct (fs_touch (workspace ws) save_file) as [fs0|];
      cbn [workspace graph next_oid]; [|eexists; reflexivity].
    destruct (fs_open_w fs0 save_file) as [fs1|];
      cbn [workspace graph next_oid]; [|eexists; reflexivity].
    rewrite He. eexists; reflexivity.
Qed.

Lemma save_raises_path_node (ws : Workspace F) (k : pykey) (d : Document) :
  In (k, d) (nodes (graph ws)) ->
  is_str_key k = false ->
  exists e, snd (save ws) = Err e.
Proof.
  intros Hin Hk.
  pose proof (encode_outcome (node_link_data (graph ws))) as H.
  rewrite (path_free_node_link_data _ _ _ Hin Hk) in H.
  destruct (encode (node_link_data (graph ws))) as [j|e] eqn:E;
    [discriminate H|].
  eapply save_raises_if_encode_raises. exact E.
Qed.

(** X10. A graph that has a [pathlib.Path] among its node identifiers cannot
    be saved: [save] raises on it, with any filesystem. *)
Theorem save_raises_on_path_identifier (ws : Workspace F) (k : pykey)
  (d : Document) :
  In (k, d) (nodes (graph ws)) ->
  is_str_key k = false ->
  exists e, snd (save ws) = Err e.
Proof. exact (save_raises_path_node ws k d). Qed.

(** X11. [load] is all or nothing for the graph and never writes: it either
    returns, or leaves the graph as it was; the filesystem is the same in
    both cases. *)
Theorem load_all_or_nothing (ws : Workspace F) :
  workspace (fst (load ws)) = workspace ws
  /\ (snd (load ws) = Ok tt \/ graph (fst (load ws)) = graph ws).
Proof.
  split; [apply load_keeps_filesystem|].
  unfold load, bind, fs_query, lift, set_graph, raise.
  destruct (fs_open_r (workspace ws) save_file) as [t|]; [|now right].
  destruct (json_loads t) as [j|]; [|now right].
  destruct (decode j (next_oid ws)) as [[v n]|]; [|now right].
  cbn. destruct (node_link_graph v); [now left|now right].
Qed.
End Saving.

(* ===================================================================== *)
(** * Connections and the nodes they create                               *)
(* ===================================================================== *)

Lemma has_node_add_node_other k p d g :
  k <> p -> has_node k (add_node p d g) = has_node k g.
Proof.
  intros H. rewrite !has_node_lookup. cbn [add_node nodes].
  now rewrite lookup_set_node_other.
Qed.

Lemma has_node_add_node_same p d g : has_node p (add_node p d g) = true.
Proof.
  rewrite has_node_lookup. cbn [add_node nodes].
  now rewrite lookup_set_node_same.
Qed.

Lemma has_node_add_node_mono k p d g :
  has_node k g = true -> has_node k (add_node p d g) = true.
Proof.
  intros H. destruct (pykey_eqb k p) eqn:E.
  - apply pykey_eqb_eq in E. subst. apply has_node_add_node_same.
  - rewrite has_node_add_node_other; [assumption|].
    intros ->. now rewrite pykey_eqb_refl in E.
Qed.

Lemma has_node_mutate_document k oid f g :
  has_node k (mutate_document oid f g) = has_node k g.
Proof.
  rewrite !has_node_lookup, lookup_mutate_document.
  now destruct (lookup_node k (nodes g)).
Qed.

Section ConnectionNodes.
Context {F text : Type} {Hfs : FS F text}.

Lemma create_document_outcome (ws ws' : Workspace F) p r :
  create_document p ws = (ws', r) ->
  graph ws' = graph ws \/ exists d, graph ws' = add_node p d (graph ws).
Proof.
  unfold create_document, new_Document, bind, fs_query, when, alloc,
    get_graph, set_graph, ret, lift, fs_update.
  destruct (fs_isfile (workspace ws) p) as [[|]|]; cbn.
  - intros [= <- _]. right. eexists. reflexivity.
  - destruct (path_dirname p) as [dir|]; [|intros [= <- _]; now left].
    destruct (fs_exists (workspace ws) dir) as [[|]|]; cbn.
    + destruct (fs_create (workspace ws) p) as [[fs' b]|]; cbn;
        intros [= <- _]; [right; eexists; reflexivity|now left].
    + destruct (fs_makedirs (workspace ws) dir) as [fs1|]; cbn;
        [|intros [= <- _]; now left].
      destruct (fs_create fs1 p) as [[fs' b]|]; cbn;
        intros [= <- _]; [right; eexists; reflexivity|now left].
    + intros [= <- _]; now left.
  - intros [= <- _]; now left.
Qed.

Lemma get_or_create_document_outcome (ws ws' : Workspace F) p r :
  get_or_create_document p ws = (ws', r) ->
  graph ws' = graph ws \/ exists d, graph ws' = add_node p d (graph ws).
Proof.
  unfold get_or_create_document, bind, get_graph, ret. cbv beta iota.
  destruct (lookup_node p (nodes (graph ws))).
  - intros [= <- _]. now left.
  - apply create_document_outcome.
Qed.

Lemma ensure_tag_nodes (ws ws' : Workspace F) doc tag r k :
  ensure_tag doc tag ws = (ws', r) ->
  has_node k (graph ws') = has_node k (graph ws).
Proof.
  unfold ensure_tag, bind, get_graph, when, set_graph, ret.
  destruct tag as [t|]; cbv beta iota.
  - destruct (negb (String.eqb t EmptyString)
              && negb (dict_has t (live_metadata doc (graph ws))));
      intros [= <- _]; cbn [graph]; [|reflexivity].
    apply has_node_mutate_document.
  - intros [= <- _]; reflexivity.
Qed.

(** X12. [create_connection] never adds or removes a node whose identifier
    is a string, whatever its outcome: the documents it creates for its two
    ends are keyed by [Path] objects, so a lookup by string path finds a
    document afterwards only if it did before. *)
Theorem create_connection_keeps_string_nodes (ws : Workspace F)
  (source target x : string) :
  has_node (KStr x) (graph (fst (create_connection source target ws)))
  = has_node (KStr x) (graph ws).
Proof.
  unfold create_connection, new_Connection.
  unfold bind at 1 2. unfold alloc, ret. cbv beta iota.
  set (w0 := mkWorkspace (workspace ws) (graph ws) (S (next_oid ws))).
  change (graph ws) with (graph w0). clearbody w0.
  unfold bind at 1. unfold lift at 1.
  destruct (separate_path source) as [[u ts]|] eqn:Es; [|reflexivity].
  cbv beta iota.
  unfold bind at 1. unfold lift at 1.
  destruct (separate_path target) as [[v tt']|] eqn:Et; [|reflexivity].
  cbv beta iota.
  apply separate_path_key in Es. apply separate_path_key in Et.
  assert (Hstep : forall p w w' r, is_str_key p = false ->
            get_or_create_document p w = (w', r) ->
            has_node (KStr x) (graph w') = has_node (KStr x) (graph w)).
  { intros p w w' r Hp H.
    apply get_or_create_document_outcome in H as [->|[d ->]];
      [reflexivity|].
    apply has_node_add_node_other. intros <-. discriminate Hp. }
  unfold bind at 1.
  destruct (get_or_create_document u w0) as [w1 [d1|]] eqn:E1;
    [|exact (Hstep _ _ _ _ Es E1)].
  apply (Hstep _ _ _ _ Es) in E1. rewrite <- E1.
  unfold bind at 1.
  destruct (get_or_create_document v w1) as [w2 [d2|]] eqn:E2;
    [|exact (Hstep _ _ _ _ Et E2)].
  apply (Hstep _ _ _ _ Et) in E2. rewrite <- E2.
  unfold bind at 1.
  destruct (ensure_tag d1 ts w2) as [w3 [[]|]] eqn:E3;
    [|exact (ensure_tag_nodes _ _ _ _ _ (KStr x) E3)].
  apply (ensure_tag_nodes _ _ _ _ _ (KStr x)) in E3. rewrite <- E3.
  unfold bind at 1.
  destruct (ensure_tag d2 tt' w3) as [w4 [[]|]] eqn:E4;
    [|exact (ensure_tag_nodes _ _ _ _ _ (KStr x) E4)].
  apply (ensure_tag_nodes _ _ _ _ _ (KStr x)) in E4. rewrite <- E4.
  unfold bind, get_graph, set_graph, ret. cbv beta iota.
  destruct (find_edge u v (graph w4)); cbn [fst graph]; [reflexivity|].
  unfold add_edge. destruct (has_edge u v (graph w4)); reflexivity.
Qed.

Lemma create_connection_nodes (ws ws' : Workspace F) source target conn
      u v ts tt' :
  separate_path source = Ok (u, ts) ->
  separate_path target = Ok (v, tt') ->
  create_connection source target ws = (ws', Ok conn) ->
  has_node u (graph ws') = true /\ has_node v (graph ws') = true.
Proof.
  intros Hs Ht.
  unfold create_connection, new_Connection.
  unfold bind at 1 2. unfold alloc, ret. cbv beta iota.
  unfold bind at 1. unfold lift at 1. rewrite Hs. cbv beta iota.
  unfold bind at 1. unfold lift at 1. rewrite Ht. cbv beta iota.
  unfold bind at 1.
  match goal with |- context [get_or_create_document u ?w] =>
    destruct (get_or_create_document u w) as [w1 [d1|]] eqn:E1 end;
    [|discriminate].
  apply get_or_create_document_edges in E1 as [_ Hu1].
  unfold bind at 1.
  destruct (get_or_create_document v w1) as [w2 [d2|]] eqn:E2; [|discriminate].
  assert (Hu2 : has_node u (graph w2) = true).
  { apply get_or_create_document_outcome in E2 as [->|[d ->]];
      [assumption|now apply has_node_add_node_mono]. }
  apply get_or_create_document_edges in E2 as [_ Hv2].
  unfold bind at 1.
  destruct (ensure_tag d1 ts w2) as [w3 [[]|]] eqn:E3; [|discriminate].
  unfold bind at 1.
  destruct (ensure_tag d2 tt' w3) as [w4 [[]|]] eqn:E4; [|discriminate].
  assert (Hn : forall k, has_node k (graph w4) = has_node k (graph w2)).
  { intros k. rewrite (ensure_tag_nodes _ _ _ _ _ k E4).
    apply (ensure_tag_nodes _ _ _ _ _ k E3). }
  unfold bind, get_graph, set_graph, ret. cbv beta iota.
  destruct (find_edge u v (graph w4)) eqn:Ef; intros [= <- _];
    cbn [graph].
  - unfold has_node, set_connlist in *. cbn [nodes]. 
    split; [rewrite <- Hu2|rewrite <- Hv2]; apply Hn.
  - unfold add_edge, has_edge. rewrite Ef.
    unfold has_node in *. cbn [nodes].
    split; [rewrite <- Hu2|rewrite <- Hv2]; apply Hn.
Qed.
End ConnectionNodes.

(* ===================================================================== *)
(** * Tags ensured by [create_connection] and the endpoint values         *)
(* ===================================================================== *)

Lemma dict_get_has k (d : dict) v :
  dict_get k d = Some v -> dict_has k d = true.
Proof.
  intros H. destruct (dict_has k d) eqn:E; [reflexivity|].
  rewrite (dict_get_absent _ _ E) in H. discriminate.
Qed.

Lemma dict_has_get k (d : dict) :
  dict_has k d = true -> exists v, dict_get k d = Some v.
Proof.
  induction d as [|[k0 v0] d IH]; simpl; [discriminate|].
  destruct (String.eqb k0 k); simpl; eauto.
Qed.

Lemma stamp_absent_lookup x k d (l : list (pykey * Document)) :
  existsb (fun kd => Nat.eqb (doc_oid (snd kd)) x) l = false ->
  lookup_node k l = Some d -> doc_oid d <> x.
Proof.
  intros He Hl Hx. apply lookup_node_In in Hl.
  assert (H : existsb (fun kd => Nat.eqb (doc_oid (snd kd)) x) l = true).
  { apply existsb_exists. exists (k, d). split; [assumption|].
    cbn [snd]. now apply Nat.eqb_eq. }
  congruence.
Qed.

(** Among distinct objects, the first payload with the stamp of the
    payload of node [k] is that payload. *)
Lemma find_stamp (l : list (pykey * Document)) : forall k d,
  distinct_stamps l = true ->
  lookup_node k l = Some d ->
  exists k', find (fun kd => Nat.eqb (doc_oid (snd kd)) (doc_oid d)) l
             = Some (k', d).
Proof.
  induction l as [|[k0 d0] l IH]; intros k d Hd Hl; [discriminate|].
  cbn [distinct_stamps] in Hd. apply andb_true_iff in Hd as [H0 Hd].
  apply negb_true_iff in H0.
  cbn [lookup_node] in Hl. cbn [find snd].
  destruct (pykey_eqb k0 k).
  - injection Hl as ->. rewrite Nat.eqb_refl. eauto.
  - pose proof (stamp_absent_lookup _ _ _ _ H0 Hl) as Hne.
    apply Nat.eqb_neq in Hne. rewrite Nat.eqb_sym, Hne.
    eapply IH; eauto.
Qed.

(** Two nodes whose payloads are the same object are the same node. *)
Lemma lookup_same_stamp l : forall k1 k2 d1 d2,
  distinct_stamps l = true ->
  lookup_node k1 l = Some d1 ->
  lookup_node k2 l = Some d2 ->
  doc_oid d1 = doc_oid d2 -> k1 = k2.
Proof.
  induction l as [|[k0 d0] l IH]; intros k1 k2 d1 d2 Hd H1 H2 Ho;
    [discriminate|].
  cbn [distinct_stamps] in Hd. apply andb_true_iff in Hd as [H0 Hd].
  apply negb_true_iff in H0.
  cbn [lookup_node] in H1, H2.
  destruct (pykey_eqb k0 k1) eqn:E1, (pykey_eqb k0 k2) eqn:E2.
  - apply pykey_eqb_eq in E1, E2. congruence.
  - injection H1 as ->.
    exfalso. apply (stamp_absent_lookup _ _ _ _ H0 H2). congruence.
  - injection H2 as ->.
    exfalso. apply (stamp_absent_lookup _ _ _ _ H0 H1). congruence.
  - eapply IH; eauto.
Qed.

Lemma live_metadata_node g k d d0 :
  distinct_stamps (nodes g) = true ->
  lookup_node k (nodes g) = Some d0 ->
  doc_oid d0 = doc_oid d ->
  live_metadata d g = doc_metadata d0.
Proof.
  intros Hd Hl Ho. unfold live_metadata. rewrite <- Ho.
  destruct (find_stamp _ _ _ Hd Hl) as (k' & ->). reflexivity.
Qed.

Lemma stamp_absent_set_node x p d (l : list (pykey * Document)) :
  doc_oid d <> x ->
  existsb (fun kd => Nat.eqb (doc_oid (snd kd)) x) l = false ->
  existsb (fun kd => Nat.eqb (doc_oid (snd kd)) x) (set_node p d l) = false.
Proof.
  intros Hx. apply Nat.eqb_neq in Hx.
  induction l as [|[k0 d0] l IH]; cbn [set_node existsb snd].
  - intros _. now rewrite Hx.
  - intros H. apply orb_false_iff in H as [H0 Hl].
    destruct (pykey_eqb k0 p); cbn [existsb snd].
    + now rewrite Hx, Hl.
    + now rewrite H0, IH.
Qed.

Lemma stamps_below_absent n (l : list (pykey * Document)) :
  forallb (fun kd => Nat.ltb (doc_oid (snd kd)) n) l = true ->
  existsb (fun kd => Nat.eqb (doc_oid (snd kd)) n) l = false.
Proof.
  induction l as [|[k0 d0] l IH]; cbn [forallb existsb snd];
    [reflexivity|].
  intros H. apply andb_true_iff in H as [H0 Hl].
  apply Nat.ltb_lt in H0.
  rewrite (IH Hl), orb_false_r. apply Nat.eqb_neq. lia.
Qed.

Lemma stamps_below_mono n m (l : list (pykey * Document)) :
  n <= m ->
  forallb (fun kd => Nat.ltb (doc_oid (snd kd)) n) l = true ->
  forallb (fun kd => Nat.ltb (doc_oid (snd kd)) m) l = true.
Proof.
  intros Hnm H. rewrite forallb_forall in *. intros x Hx.
  specialize (H x Hx). apply Nat.ltb_lt in H. apply Nat.ltb_lt. lia.
Qed.

(** A newly allocated document keeps the payloads distinct. *)
Lemma distinct_stamps_set_node n p q m (l : list (pykey * Document)) :
  forallb (fun kd => Nat.ltb (doc_oid (snd kd)) n) l = true ->
  distinct_stamps l = true ->
  distinct_stamps (set_node p (mkDocument n q m) l) = true
  /\ forallb (fun kd => Nat.ltb (doc_oid (snd kd)) (S n))
             (set_node p (mkDocument n q m) l) = true.
Proof.
  induction l as [|[k0 d0] l IH];
    cbn [set_node forallb distinct_stamps existsb snd doc_oid].
  - intros _ _. split; [reflexivity|].
    rewrite andb_true_r. apply Nat.ltb_lt. lia.
  - intros Hb Hd. apply andb_true_iff in Hb as [Hb0 Hb].
    apply andb_true_iff in Hd as [Hd0 Hd].
    apply negb_true_iff in Hd0.
    destruct (pykey_eqb k0 p);
      cbn [forallb distinct_stamps existsb snd doc_oid].
    + split.
      * rewrite (stamps_below_absent _ _ Hb). now rewrite Hd.
      * apply andb_true_iff. split; [apply Nat.ltb_lt; lia|].
        apply (stamps_below_mono n); [lia|assumption].
    + destruct (IH Hb Hd) as [IH1 IH2]. split.
      * rewrite IH1, andb_true_r. apply negb_true_iff.
        apply stamp_absent_set_node; [|assumption].
        cbn [doc_oid]. apply Nat.ltb_lt in Hb0. lia.
      * rewrite IH2, andb_true_r. apply Nat.ltb_lt.
        apply Nat.ltb_lt in Hb0. lia.
Qed.

Lemma distinct_stamps_mutate oid f g :
  distinct_stamps (nodes (mutate_document oid f g))
  = distinct_stamps (nodes g).
Proof.
  unfold mutate_document. cbn [nodes].
  assert (E : forall x (l : list (pykey * Document)),
    existsb (fun kd => Nat.eqb (doc_oid (snd kd)) x)
      (map (fun kd =>
              if Nat.eqb (doc_oid (snd kd)) oid
              then (fst kd, mkDocument oid (doc_path (snd kd))
                                       (f (doc_metadata (snd kd))))
              else kd) l)
    = existsb (fun kd => Nat.eqb (doc_oid (snd kd)) x) l).
  { intros x l. induction l as [|[k0 d0] l IH]; cbn [map existsb snd fst];
      [reflexivity|].
    rewrite IH. f_equal.
    destruct (Nat.eqb (doc_oid d0) oid) eqn:E; cbn [snd doc_oid];
      [|reflexivity].
    apply Nat.eqb_eq in E. now rewrite E. }
  induction (nodes g) as [|[k0 d0] l IH]; cbn [map distinct_stamps snd fst];
    [reflexivity|].
  destruct (Nat.eqb (doc_oid d0) oid) eqn:E0; cbn [distinct_stamps].
  - apply Nat.eqb_eq in E0. cbn [doc_oid]. rewrite E, IH.
    now rewrite E0.
  - now rewrite E, IH.
Qed.

Lemma tag_value_add_blank g p n q k t :
  lookup_node p (nodes g) = None ->
  tag_value (add_node p (mkDocument n q []) g) k t = tag_value g k t.
Proof.
  intros Hp. unfold tag_value. cbn [add_node nodes].
  destruct (pykey_eqb p k) eqn:E.
  - apply pykey_eqb_eq in E. subst k.
    now rewrite lookup_set_node_same, Hp.
  - rewrite lookup_set_node_other; [reflexivity|].
    intros ->. now rewrite pykey_eqb_refl in E.
Qed.

Section Endpoints.
Context {F text : Type} {Hfs : FS F text}.

(** [get_or_create_document] keeps the documents distinct objects and
    changes no tag value: a document it creates has no metadata. *)
Lemma get_or_create_document_stamps (ws ws' : Workspace F) p doc :
  stamps_ok ws = true ->
  get_or_create_document p ws = (ws', Ok doc) ->
  stamps_ok ws' = true
  /\ lookup_node p (nodes (graph ws')) = Some doc
  /\ (forall k d, lookup_node k (nodes (graph ws)) = Some d ->
                  lookup_node k (nodes (graph ws')) = Some d)
  /\ forall k t, tag_value (graph ws') k t = tag_value (graph ws) k t.
Proof.
  unfold stamps_ok. rewrite !andb_true_iff. intros [Hd Hb].
  unfold get_or_create_document, bind, get_graph, ret. cbv beta iota.
  destruct (lookup_node p (nodes (graph ws))) as [d|] eqn:E.
  - intros [= <- <-]. auto.
  - intros H. apply create_document_graph in H as (-> & -> & ->).
    cbn [add_node nodes].
    destruct (distinct_stamps_set_node (next_oid ws) p p [] _ Hb Hd)
      as [H1 H2].
    repeat split; try assumption.
    + apply lookup_set_node_same.
    + intros k d Hk. rewrite lookup_set_node_other; [assumption|].
      intros ->. congruence.
    + intros k t. now apply tag_value_add_blank.
Qed.

(** What [ensure_tag] does to the tag values when the reference [doc] is
    the payload of node [k0], up to the mutations made since it was
    obtained. *)
Lemma ensure_tag_value (ws ws' : Workspace F) doc tag r k0 d0 :
  distinct_stamps (nodes (graph ws)) = true ->
  lookup_node k0 (nodes (graph ws)) = Some d0 ->
  doc_oid d0 = doc_oid doc ->
  ensure_tag doc tag ws = (ws', r) ->
  distinct_stamps (nodes (graph ws')) = true
  /\ next_oid ws' = next_oid ws
  /\ (forall k, match lookup_node k (nodes (graph ws')),
                      lookup_node k (nodes (graph ws)) with
                | Some d', Some d => doc_oid d' = doc_oid d
                | None, None => True
                | _, _ => False
                end)
  /\ forall k t,
       tag_value (graph ws') k t
       = match tag with
         | Some t0 =>
             if negb (String.eqb t0 EmptyString)
                && pykey_eqb k k0 && String.eqb t0 t
             then Some (ensured_value (graph ws) k0 t0)
             else tag_value (graph ws) k t
         | None => tag_value (graph ws) k t
         end.
Proof.
  intros Hd Hl Ho.
  assert (Hsame : forall k : pykey,
            match lookup_node k (nodes (graph ws)),
                  lookup_node k (nodes (graph ws)) with
            | Some d', Some d => doc_oid d' = doc_oid d
            | None, None => True
            | _, _ => False
            end).
  { intros k. now destruct (lookup_node k (nodes (graph ws))). }
  unfold ensure_tag, bind, get_graph, when, set_graph, ret.
  destruct tag as [t0|]; cbv beta iota;
    [|intros [= <- _]; repeat split; auto].
  rewrite (live_metadata_node _ _ _ _ Hd Hl Ho).
  destruct (String.eqb t0 EmptyString) eqn:Et; cbn [negb andb].
  { intros [= <- _]. repeat split; auto. }
  destruct (dict_has t0 (doc_metadata d0)) eqn:Eh; cbn [negb].
  - intros [= <- _]. repeat split; auto.
    intros k t.
    destruct (pykey_eqb k k0) eqn:Ek; [|reflexivity].
    destruct (String.eqb t0 t) eqn:Ett; [|reflexivity].
    apply pykey_eqb_eq in Ek. apply String.eqb_eq in Ett. subst k t.
    unfold ensured_value, tag_value. rewrite Hl.
    destruct (dict_has_get _ _ Eh) as (v & ->). reflexivity.
  - intros [= <- _]. cbn [graph next_oid].
    split; [now rewrite distinct_stamps_mutate|].
    split; [reflexivity|].
    split.
    { intros k. rewrite lookup_mutate_document.
      destruct (lookup_node k (nodes (graph ws))) as [d|]; [|exact I].
      destruct (Nat.eqb (doc_oid d) (doc_oid doc)) eqn:E; [|reflexivity].
      apply Nat.eqb_eq in E. now rewrite E. }
    intros k t. unfold tag_value at 1. rewrite lookup_mutate_document.
    destruct (lookup_node k (nodes (graph ws))) as [d|] eqn:Ek.
    + destruct (Nat.eqb (doc_oid d) (doc_oid doc)) eqn:E.
      * apply Nat.eqb_eq in E.
        assert (k = k0).
        { eapply lookup_same_stamp; eauto. congruence. }
        subst k. rewrite pykey_eqb_refl. cbn [andb doc_metadata].
        assert (d = d0) by congruence. subst d.
        rewrite dict_get_set.
        destruct (String.eqb t0 t) eqn:Ett.
        -- unfold ensured_value, tag_value. rewrite Hl.
           now rewrite (dict_get_absent _ _ Eh).
        -- unfold tag_value. now rewrite Hl.
      * destruct (pykey_eqb k k0) eqn:Ekk.
        -- apply pykey_eqb_eq in Ekk. subst k.
           assert (d = d0) by congruence. subst d.
           rewrite Ho, Nat.eqb_refl in E. discriminate.
        -- cbn [andb]. unfold tag_value. now rewrite Ek.
    + destruct (pykey_eqb k k0) eqn:Ekk.
      * apply pykey_eqb_eq in Ekk. subst k. congruence.
      * cbn [andb]. unfold tag_value. now rewrite Ek.
Qed.

Lemma get_source_value_of_tag c g u t x :
  separate_path (conn_source c) = Ok (u, Some t) ->
  t <> EmptyString ->
  tag_value g u t = Some x ->
  get_source_value c g = EValue x.
Proof.
  intros Hs Ht. unfold tag_value, get_source_value. rewrite Hs.
  destruct (lookup_node u (nodes g)) as [d|]; [|discriminate].
  intros ->. apply String.eqb_neq in Ht. now rewrite Ht.
Qed.

Lemma get_target_value_of_tag c g u t x :
  separate_path (conn_target c) = Ok (u, Some t) ->
  t <> EmptyString ->
  tag_value g u t = Some x ->
  get_target_value c g = EValue x.
Proof.
  intros Hs Ht. unfold tag_value, get_target_value. rewrite Hs.
  destruct (lookup_node u (nodes g)) as [d|]; [|discriminate].
  intros ->. apply String.eqb_neq in Ht. now rewrite Ht.
Qed.

(** The tags named by the two addresses hold a value once
    [create_connection] has returned. *)
Lemma create_connection_tag_values (ws ws' : Workspace F) source target
      conn u ts v tt' :
  stamps_ok ws = true ->
  separate_path source = Ok (u, ts) ->
  separate_path target = Ok (v, tt') ->
  create_connection source target ws = (ws', Ok conn) ->
  conn = mkConnection (next_oid ws) source target []
  /\ (forall t, ts = Some t -> t <> EmptyString ->
        tag_value (graph ws') u t = Some (ensured_value (graph ws) u t))
  /\ (forall t, tt' = Some t -> t <> EmptyString ->
        tag_value (graph ws') v t = Some (ensured_value (graph ws) v t)).
Proof.
  intros Hok Hs Ht.
  unfold create_connection, new_Connection.
  unfold bind at 1 2. unfold alloc, ret. cbv beta iota.
  unfold bind at 1. unfold lift at 1. rewrite Hs. cbv beta iota.
  unfold bind at 1. unfold lift at 1. rewrite Ht. cbv beta iota.
  set (w0 := mkWorkspace (workspace ws) (graph ws) (S (next_oid ws))).
  assert (Hok0 : stamps_ok w0 = true).
  { unfold stamps_ok in *. cbn [graph next_oid w0].
    apply andb_true_iff in Hok as [Hd Hb].
    rewrite Hd. cbn [andb].
    apply (stamps_below_mono (next_oid ws)); [lia|assumption]. }
  change (graph ws) with (graph w0). clearbody w0.
  unfold bind at 1.
  destruct (get_or_create_document u w0) as [w1 [d1|]] eqn:E1;
    [|discriminate].
  apply (get_or_create_document_stamps _ _ _ _ Hok0) in E1
    as (Hok1 & Hu1 & _ & Htv1).
  unfold bind at 1.
  destruct (get_or_create_document v w1) as [w2 [d2|]] eqn:E2;
    [|discriminate].
  apply (get_or_create_document_stamps _ _ _ _ Hok1) in E2
    as (Hok2 & Hv2 & Hkeep2 & Htv2).
  apply Hkeep2 in Hu1.
  assert (Hd2 : distinct_stamps (nodes (graph w2)) = true).
  { unfold stamps_ok in Hok2. now apply andb_true_iff in Hok2 as [? _]. }
  unfold bind at 1.
  destruct (ensure_tag d1 ts w2) as [w3 [[]|]] eqn:E3; [|discriminate].
  apply (ensure_tag_value _ _ _ _ _ u d1 Hd2 Hu1 eq_refl) in E3
    as (Hd3 & _ & Hsame3 & Htv3).
  assert (Hv3 : exists d, lookup_node v (nodes (graph w3)) = Some d
                          /\ doc_oid d = doc_oid d2).
  { specialize (Hsame3 v). rewrite Hv2 in Hsame3.
    destruct (lookup_node v (nodes (graph w3))) as [d|]; [eauto|tauto]. }
  destruct Hv3 as (d2' & Hv3 & Ho3).
  unfold bind at 1.
  destruct (ensure_tag d2 tt' w3) as [w4 [[]|]] eqn:E4; [|discriminate].
  apply (ensure_tag_value _ _ _ _ _ v d2' Hd3 Hv3 Ho3) in E4
    as (_ & _ & _ & Htv4).
  assert (He2 : forall k t,
            ensured_value (graph w2) k t = ensured_value (graph w0) k t).
  { intros k t. unfold ensured_value. now rewrite Htv2, Htv1. }
  assert (Hfin : forall g k t,
            nodes g = nodes (graph w4) ->
            tag_value g k t = tag_value (graph w4) k t).
  { intros g k t Hn. unfold tag_value. now rewrite Hn. }
  assert (Hsrc : forall t, ts = Some t -> t <> EmptyString ->
            tag_value (graph w4) u t = Some (ensured_value (graph w0) u t)).
  { intros t -> Hne. apply String.eqb_neq in Hne.
    assert (H3 : tag_value (graph w3) u t
                 = Some (ensured_value (graph w0) u t)).
    { rewrite Htv3, Hne, pykey_eqb_refl, String.eqb_refl. cbn [negb andb].
      now rewrite He2. }
    rewrite Htv4. destruct tt' as [t1|]; [|exact H3].
    destruct (negb (String.eqb t1 EmptyString) && pykey_eqb u v
              && String.eqb t1 t) eqn:Ec; [|exact H3].
    apply andb_true_iff in Ec as [Ec Et1].
    apply andb_true_iff in Ec as [_ Euv].
    apply pykey_eqb_eq in Euv. apply String.eqb_eq in Et1. subst v t1.
    unfold ensured_value at 1. now rewrite H3. }
  assert (Htgt : forall t, tt' = Some t -> t <> EmptyString ->
            tag_value (graph w4) v t = Some (ensured_value (graph w0) v t)).
  { intros t -> Hne. apply String.eqb_neq in Hne.
    rewrite Htv4, Hne, pykey_eqb_refl, String.eqb_refl. cbn [negb andb].
    f_equal. unfold ensured_value at 1. rewrite Htv3.
    destruct ts as [t0|]; [|apply He2].
    destruct (negb (String.eqb t0 EmptyString) && pykey_eqb v u
              && String.eqb t0 t) eqn:Ec; [|apply He2].
    apply andb_true_iff in Ec as [Ec Et0].
    apply andb_true_iff in Ec as [_ Euv].
    apply pykey_eqb_eq in Euv. apply String.eqb_eq in Et0. subst v t0.
    apply He2. }
  unfold bind, get_graph, set_graph, ret. cbv beta iota.
  destruct (find_edge u v (graph w4)) eqn:Ef; intros [= <- <-];
    cbn [graph]; (split; [reflexivity|]).
  - split; intros t H1 H2; rewrite Hfin by reflexivity; auto.
  - assert (Hn : nodes (add_edge u v
                   [mkConnection (next_oid ws) source target []] (graph w4))
                 = nodes (graph w4)).
    { unfold add_edge. now destruct (has_edge u v (graph w4)). }
    split; intros t H1 H2; rewrite (Hfin _ _ _ Hn); auto.
Qed.

(** X13. Once [create_connection] has returned for a source address that
    names a tag, [get_source_value] of the new connection returns a value:
    the one the tag had, or the empty string the tag was created with. *)
Theorem create_connection_source_value (ws ws' : Workspace F)
  (source target : string) (conn : Connection) (u : pykey) (t : string) :
  stamps_ok ws = true ->
  create_connection source target ws = (ws', Ok conn) ->
  separate_path source = Ok (u, Some t) ->
  t <> EmptyString ->
  get_source_value conn (graph ws') = EValue (ensured_value (graph ws) u t).
Proof.
  intros Hok Hc Hs Ht.
  destruct (separate_path target) as [[v tt']|e] eqn:Et.
  - destruct (create_connection_tag_values _ _ _ _ _ _ _ _ _ Hok Hs Et Hc)
      as (-> & Hsrc & _).
    apply (get_source_value_of_tag _ _ u t); auto.
  - exfalso. revert Hc.
    unfold create_connection, new_Connection.
    unfold bind at 1 2. unfold alloc, ret. cbv beta iota.
    unfold bind at 1. unfold lift at 1. rewrite Hs. cbv beta iota.
    unfold bind at 1. unfold lift at 1. rewrite Et. discriminate.
Qed.

(** X14. Once [create_connection] has returned for a target address that
    names a tag, [get_target_value] of the new connection returns a value:
    the one the tag had, or the empty string the tag was created with. *)
Theorem create_connection_target_value (ws ws' : Workspace F)
  (source target : string) (conn : Connection) (v : pykey) (t : string) :
  stamps_ok ws = true ->
  create_connection source target ws = (ws', Ok conn) ->
  separate_path target = Ok (v, Some t) ->
  t <> EmptyString ->
  get_target_value conn (graph ws') = EValue (ensured_value (graph ws) v t).
Proof.
  intros Hok Hc Ht Hne.
  destruct (separate_path source) as [[u ts]|e] eqn:Es.
  - destruct (create_connection_tag_values _ _ _ _ _ _ _ _ _ Hok Es Ht Hc)
      as (-> & _ & Htgt).
    apply (get_target_value_of_tag _ _ v t); auto.
  - exfalso. revert Hc.
    unfold create_connection, new_Connection.
    unfold bind at 1 2. unfold alloc, ret. cbv beta iota.
    unfold bind at 1. unfold lift at 1. rewrite Es. discriminate.
Qed.
End Endpoints.

(** The source tag of [create_connection("d1:t", "d2")] on the empty
    workspace reads as the empty string. *)
Lemma create_connection_source_value_witness :
  get_source_value (mkConnection 0 "d1:t" "d2" []) (graph ws_tag_connected)
  = EValue (PStr EmptyString).
Proof.
  apply (create_connection_source_value ws_empty ws_tag_connected
           "d1:t" "d2" (mkConnection 0 "d1:t" "d2" []) (KPath "d1") "t").
  - reflexivity.
  - reflexivity.
  - reflexivity.
  - discriminate.
Defined.

(** The target tag of [create_connection("d2", "d1:t")] on a workspace
    where the tag exists already keeps its value. *)
Lemma create_connection_target_value_witness :
  get_target_value (mkConnection 3 "d2" "d1:t" [])
    (graph (fst (create_connection "d2" "d1:t" ws_tag_connected)))
  = EValue (PStr EmptyString).
Proof.
  apply (create_connection_target_value ws_tag_connected
           (fst (create_connection "d2" "d1:t" ws_tag_connected))
           "d2" "d1:t" (mkConnection 3 "d2" "d1:t" []) (KPath "d1") "t").
  - reflexivity.
  - reflexivity.
  - reflexivity.
  - discriminate.
Defined.

(* ===================================================================== *)
(** * What a new connection changes                                       *)
(* ===================================================================== *)

(** An edge between [u] and [v] does not join another pair. *)
Lemma joins_other a b u v e :
  joins a b (mkEdge u v []) = false ->
  joins u v e = true -> joins a b e = false.
Proof.
  unfold joins. cbn [edge_u edge_v]. intros Hab Huv.
  apply orb_true_iff in Huv as [H|H];
    apply andb_true_iff in H as [H1 H2];
    apply pykey_eqb_eq in H1, H2; rewrite H1, H2.
  - exact Hab.
  - rewrite orb_comm, (andb_comm (pykey_eqb v a)),
      (andb_comm (pykey_eqb v b)). exact Hab.
Qed.

Lemma find_edge_set_connlist_other a b u v cl g :
  joins a b (mkEdge u v []) = false ->
  find_edge a b (set_connlist u v cl g) = find_edge a b g.
Proof.
  intros Hab. unfold find_edge, set_connlist. cbn [edges].
  induction (edges g) as [|e l IH]; [reflexivity|].
  cbn [map find].
  destruct (joins u v e) eqn:E.
  - change (joins a b (mkEdge (edge_u e) (edge_v e) cl)) with (joins a b e).
    rewrite (joins_other _ _ _ _ _ Hab E). exact IH.
  - destruct (joins a b e); [reflexivity|exact IH].
Qed.

Lemma find_edge_add_edge_other a b u v cl g :
  joins a b (mkEdge u v []) = false ->
  find_edge a b (add_edge u v cl g) = find_edge a b g.
Proof.
  intros Hab. unfold add_edge.
  destruct (has_edge u v g); [now apply find_edge_set_connlist_other|].
  unfold find_edge. cbn [edges].
  induction (edges g) as [|e l IH]; cbn [app find].
  - change (joins a b (mkEdge u v cl)) with (joins a b (mkEdge u v [])).
    now rewrite Hab.
  - destruct (joins a b e); [reflexivity|exact IH].
Qed.

Section ConnectionEffect.
Context {F text : Type} {Hfs : FS F text} {Hjson : Json text}.

Lemma create_connection_other_edges (ws ws' : Workspace F) source target
      conn u v ts tt' :
  separate_path source = Ok (u, ts) ->
  separate_path target = Ok (v, tt') ->
  create_connection source target ws = (ws', Ok conn) ->
  forall a b, joins a b (mkEdge u v []) = false ->
              find_edge a b (graph ws') = find_edge a b (graph ws).
Proof.
  intros Hs Ht.
  unfold create_connection, new_Connection.
  unfold bind at 1 2. unfold alloc, ret. cbv beta iota.
  unfold bind at 1. unfold lift at 1. rewrite Hs. cbv beta iota.
  unfold bind at 1. unfold lift at 1. rewrite Ht. cbv beta iota.
  unfold bind at 1.
  match goal with |- context [get_or_create_document u ?w] =>
    set (w0 := w); destruct (get_or_create_document u w0)
      as [w1 [d1|]] eqn:E1 end; [|discriminate].
  apply get_or_create_document_edges in E1 as [E1 _].
  unfold bind at 1.
  destruct (get_or_create_document v w1) as [w2 [d2|]] eqn:E2;
    [|discriminate].
  apply get_or_create_document_edges in E2 as [E2 _].
  unfold bind at 1.
  destruct (ensure_tag d1 ts w2) as [w3 [[]|]] eqn:E3; [|discriminate].
  apply ensure_tag_edges in E3.
  unfold bind at 1.
  destruct (ensure_tag d2 tt' w3) as [w4 [[]|]] eqn:E4; [|discriminate].
  apply ensure_tag_edges in E4.
  assert (Hedges : edges (graph w4) = edges (graph ws)).
  { rewrite E4, E3, E2, E1. reflexivity. }
  unfold bind, get_graph, set_graph, ret. cbv beta iota.
  destruct (find_edge u v (graph w4)) as [e|] eqn:Ef;
    intros [= <- _] a b Hab; cbn [graph].
  - rewrite find_edge_set_connlist_other by assumption.
    unfold find_edge. now rewrite Hedges.
  - rewrite find_edge_add_edge_other by assumption.
    unfold find_edge. now rewrite Hedges.
Qed.

(** X15. When [create_connection] returns, the connection it returns is a
    new one with the two addresses and no metadata; both documents are nodes
    of the graph; the edge between them holds the connections it held
    before, in order, followed by the new one (the new one alone when there
    was no edge); and the edge of every other pair of nodes is as it was. *)
Theorem create_connection_links (ws ws' : Workspace F)
  (source target : string) (conn : Connection) (u v : pykey)
  (ts tt' : option string) :
  separate_path source = Ok (u, ts) ->
  separate_path target = Ok (v, tt') ->
  create_connection source target ws = (ws', Ok conn) ->
  conn = mkConnection (next_oid ws) source target []
  /\ has_node u (graph ws') = true
  /\ has_node v (graph ws') = true
  /\ (exists e',
        find_edge u v (graph ws') = Some e'
        /\ connlist e'
           = match find_edge u v (graph ws) with
             | Some e => connlist e ++ [conn]
             | None => [conn]
             end)
  /\ (forall a b, joins a b (mkEdge u v []) = false ->
                  find_edge a b (graph ws') = find_edge a b (graph ws)).
Proof.
  intros Hs Ht Hc.
  destruct (create_connection_edge _ _ _ _ _ _ _ _ _ Hs Ht Hc) as [H1 H2].
  destruct (create_connection_nodes _ _ _ _ _ _ _ _ _ Hs Ht Hc) as [H3 H4].
  repeat split; try assumption.
  exact (create_connection_other_edges _ _ _ _ _ _ _ _ _ Hs Ht Hc).
Qed.

(** X16. A workspace in which [create_connection] has just returned cannot
    be saved: the two ends are nodes keyed by [Path] objects, which the
    encoder refuses, so [save] raises whatever the filesystem does. *)
Theorem create_connection_then_save_raises (ws ws' : Workspace F)
  (source target : string) (conn : Connection) :
  create_connection source target ws = (ws', Ok conn) ->
  exists e, snd (save ws') = Err e.
Proof.
  intros Hc.
  destruct (separate_path source) as [[u ts]|e] eqn:Hs.
  - destruct (separate_path target) as [[v tt']|e] eqn:Ht.
    + destruct (create_connection_nodes _ _ _ _ _ _ _ _ _ Hs Ht Hc)
        as [Hu _].
      rewrite has_node_lookup in Hu.
      destruct (lookup_node u (nodes (graph ws'))) as [d|] eqn:El;
        [|discriminate].
      apply lookup_node_In in El.
      apply (save_raises_path_node ws' u d El).
      exact (separate_path_key _ _ _ Hs).
    + exfalso. revert Hc.
      unfold create_connection, new_Connection.
      unfold bind at 1 2. unfold alloc, ret. cbv beta iota.
      unfold bind at 1. unfold lift at 1. rewrite Hs. cbv beta iota.
      unfold bind at 1. unfold lift at 1. rewrite Ht. discriminate.
  - exfalso. revert Hc.
    unfold create_connection, new_Connection.
    unfold bind at 1 2. unfold alloc, ret. cbv beta iota.
    unfold bind at 1. unfold lift at 1. rewrite Hs. discriminate.
Qed.

(** X17. [get_connection], [update_connection] and [delete_connection] raise
    on every workspace and every pair of addresses, all three with the same
    exception, and leave the workspace as it is: no connection is ever
    returned, updated or removed. *)
Theorem connection_lookups_never_return (ws : Workspace F)
  (source target : string) (metadata : dict) :
  exists e,
    get_connection source target ws = (ws, Err e)
    /\ update_connection source target metadata ws = (ws, Err e)
    /\ delete_connection source target ws = (ws, Err e).
Proof.
  destruct (get_connection_raises ws source target) as (e & He).
  exists e. split; [exact He|]. split.
  - unfold update_connection, bind. now rewrite He.
  - unfold delete_connection. unfold bind at 1. unfold lift at 1.
    destruct (separate_path source) as [[u ?]|e0] eqn:Hs.
    + unfold bind at 1. unfold lift at 1.
      destruct (separate_path target) as [[v ?]|e1] eqn:Ht.
      * unfold bind at 1. now rewrite He.
      * revert He. unfold get_connection, bind, lift. rewrite Hs, Ht.
        now intros [= ->].
    + revert He. unfold get_connection, bind, lift. rewrite Hs.
      now intros [= ->].
Qed.
End ConnectionEffect.

(** A second [create_connection("d1", "d2")]: the edge between the two
    [Path] nodes then holds both connections. *)
Lemma create_connection_links_witness :
  mkConnection 3 "d1" "d2" []
  = mkConnection (next_oid ws_connected) "d1" "d2" []
  /\ has_node (KPath "d1") (graph ws_duplicates) = true
  /\ has_node (KPath "d2") (graph ws_duplicates) = true
  /\ (exists e',
        find_edge (KPath "d1") (KPath "d2") (graph ws_duplicates) = Some e'
        /\ connlist e'
           = match find_edge (KPath "d1") (KPath "d2")
                     (graph ws_connected) with
             | Some e => connlist e ++ [mkConnection 3 "d1" "d2" []]
             | None => [mkConnection 3 "d1" "d2" []]
             end)
  /\ (forall a b, joins a b (mkEdge (KPath "d1") (KPath "d2") []) = false ->
                  find_edge a b (graph ws_duplicates)
                  = find_edge a b (graph ws_connected)).
Proof.
  apply (create_connection_links ws_connected ws_duplicates "d1" "d2"
           (mkConnection 3 "d1" "d2" []) (KPath "d1") (KPath "d2")
           None None).
  - reflexivity.
  - reflexivity.
  - reflexivity.
Defined.

(** [save] after [create_connection("d1", "d2")] on the empty
    workspace. *)
Lemma create_connection_then_save_raises_witness :
  exists e, snd (save ws_connected) = Err e.
Proof.
  apply (create_connection_then_save_raises ws_empty ws_connected
           "d1" "d2" (mkConnection 0 "d1" "d2" [])).
  reflexivity.
Defined.

(* ===================================================================== *)
(** * The document routes                                                 *)
(* ===================================================================== *)

Section DocumentRoutes.
Context {F text : Type} {Hfs : FS F text}.

(** X18. [GET /documents/{path}/meta/{key}] reads and changes nothing. It
    answers 404 exactly when the workspace has no node ["./{path}"]; on a
    document that lacks the key the [KeyError] of [doc.metadata[key]] is not
    a [ValueError], so it leaves the route uncaught instead of becoming a
    404; otherwise the value is returned. *)
Theorem route_get_metadata_value (ws : Workspace F) (path : pykey)
  (key : string) :
  DocumentRouter.get_metadata_value path key ws
  = (ws,
     match lookup_node (route_key path) (nodes (graph ws)) with
     | None =>
         HTTPException 404 (ValueError (DocumentNotFound (route_key path)))
     | Some doc =>
         match dict_get key (doc_metadata doc) with
         | Some v => Returned v
         | None => Uncaught (KeyError key)
         end
     end).
Proof.
  unfold DocumentRouter.get_metadata_value, try_except_ValueError,
    get_document, bind, get_graph, raise, ret.
  destruct (lookup_node (route_key path) (nodes (graph ws))) as [doc|];
    [|reflexivity].
  destruct (dict_get key (doc_metadata doc)); reflexivity.
Qed.

Lemma del_metadata_key_raises (ws : Workspace F) (k : pykey)
      (key : string) :
  exists e,
    del_metadata_key k key ws = (ws, Err e)
    /\ (is_ValueError e = true
        \/ (e = AttributeError "graph_nodes"
            /\ has_node k (graph ws) = true)).
Proof.
  unfold del_metadata_key, get_document, bind, get_graph, raise, ret.
  rewrite has_node_lookup.
  destruct (lookup_node k (nodes (graph ws))) as [doc|].
  - unfold ProtectedMetadata_delitem, _delete_connections, bind.
    destruct (get_connections_with_source_raises ws
                (key_text (doc_path doc) ++ ":" ++ key)%string)
      as (e & He & Hcase).
    rewrite He. exists e. split; [reflexivity|].
    destruct Hcase as [Hcase|Hcase]; rewrite Hcase; auto.
  - eexists. split; [reflexivity|]. now left.
Qed.

(** X19. [DELETE /documents/{path}/meta/{key}] never returns and never
    changes the workspace: it answers 404 (no such document, or an address
    with more than one colon), or the [AttributeError] of [self.graph_nodes]
    leaves the route uncaught; the key stays in every case. *)
Theorem route_delete_metadata_key (ws : Workspace F) (path : pykey)
  (key : string) :
  fst (DocumentRouter.delete_metadata_key path key ws) = ws
  /\ match snd (DocumentRouter.delete_metadata_key path key ws) with
     | Returned _ => False
     | HTTPException status_code _ => status_code = 404
     | Uncaught e =>
         e = AttributeError "graph_nodes"
         /\ has_node (route_key path) (graph ws) = true
     end.
Proof.
  change (DocumentRouter.delete_metadata_key path key ws)
    with (try_except_ValueError (del_metadata_key (route_key path) key) ws).
  unfold try_except_ValueError.
  destruct (del_metadata_key_raises ws (route_key path) key)
    as (e & He & Hcase).
  rewrite He.
  destruct Hcase as [Hv|[He' Hn]].
  - rewrite Hv. split; reflexivity.
  - rewrite He'. cbn. auto.
Qed.

(** X20. [DELETE /documents/{path}] hands its [Path] parameter to
    [Workspace.delete_document], so whatever the request and its outcome,
    every node whose identifier is a string keeps its document; without
    [in_filesystem=true] the route also leaves the filesystem alone and
    returns, whether the document exists or not. *)
Theorem route_delete_document_keeps_string_nodes (ws : Workspace F)
  (path : pykey) (in_filesystem : option bool) (x : string) :
  is_str_key path = false ->
  lookup_node (KStr x)
    (nodes (graph (fst (DocumentRouter.delete_document path
                          in_filesystem ws))))
  = lookup_node (KStr x) (nodes (graph ws))
  /\ match in_filesystem with
     | Some true => True
     | _ =>
         workspace (fst (DocumentRouter.delete_document path
                           in_filesystem ws)) = workspace ws
         /\ snd (DocumentRouter.delete_document path in_filesystem ws)
            = Returned tt
     end.
Proof.
  intros Hp. split.
  - unfold DocumentRouter.delete_document, try_except_ValueError.
    set (b := match in_filesystem with Some b => b | None => false end).
    pose proof (delete_document_graph ws path b) as H.
    destruct (delete_document path b ws) as [ws' [[]|e]];
      cbn [fst snd] in *.
    + rewrite H. destruct (has_node path (graph ws)); [|reflexivity].
      unfold remove_node. cbn [nodes].
      apply lookup_node_filter_other. intros <-. discriminate Hp.
    + destruct (is_ValueError e); cbn [fst]; now rewrite H.
  - assert (E : workspace (fst (DocumentRouter.delete_document path
                                  None ws)) = workspace ws
                /\ snd (DocumentRouter.delete_document path None ws)
                   = Returned tt).
    { unfold DocumentRouter.delete_document, try_except_ValueError,
        delete_document, bind, when, get_graph, set_graph, ret.
      cbv beta iota.
      destruct (has_node path (graph ws)); split; reflexivity. }
    destruct in_filesystem as [[|]|]; [exact I|exact E|exact E].
Qed.

End DocumentRoutes.

(** The route on a workspace whose document ["d1"] was created with the
    string path. *)
Lemma route_delete_document_keeps_string_nodes_witness :
  lookup_node (KStr "d1")
    (nodes (graph (fst (DocumentRouter.delete_document (Path "d1")
                          None ws_tagged))))
  = lookup_node (KStr "d1") (nodes (graph ws_tagged))
  /\ (workspace (fst (DocumentRouter.delete_document (Path "d1")
                        None ws_tagged)) = workspace ws_tagged
      /\ snd (DocumentRouter.delete_document (Path "d1") None ws_tagged)
         = Returned tt).
Proof.
  apply (route_delete_document_keeps_string_nodes ws_tagged (Path "d1")
           None "d1").
  reflexivity.
Defined.

(* ===================================================================== *)
(** * The properties above on concrete workspaces                         *)
(* ===================================================================== *)

Lemma mem_lookup_store p t l : mem_lookup p (mem_store p t l) = Some t.
Proof.
  induction l as [|[q t'] l IH]; simpl.
  - now rewrite String.eqb_refl.
  - destruct (String.eqb q p) eqn:E; simpl; now rewrite E.
Qed.

(** The in-memory filesystem reads back what was written. *)
Lemma MemFS_write_read (fs : MemFS) (q : pykey) (t : mtext) (fs' : MemFS) :
  fs_write fs q t = Ok fs' -> fs_open_r fs' q = Ok t.
Proof.
  cbn. unfold mem_put.
  destruct (mem_isdir fs (key_text q)); [discriminate|].
  destruct (mem_isdir fs (dirname (key_text q))); [|discriminate].
  intros [= <-]. cbn [mem_files]. now rewrite mem_lookup_store.
Qed.

(** [create_document("d1")] on the empty workspace, then the lookups. *)
Lemma create_document_then_lookup_witness :
  get_document (KStr "d1") (fst (create_document (KStr "d1") ws_empty))
  = (fst (create_document (KStr "d1") ws_empty),
     Ok (mkDocument 0 (KStr "d1") []))
  /\ get_or_create_document (KStr "d1")
       (fst (create_document (KStr "d1") ws_empty))
     = (fst (create_document (KStr "d1") ws_empty),
        Ok (mkDocument 0 (KStr "d1") [])).
Proof.
  apply (create_document_then_lookup ws_empty
           (fst (create_document (KStr "d1") ws_empty)) (KStr "d1")
           (mkDocument 0 (KStr "d1") [])).
  reflexivity.
Defined.

(** [update_document("d1", {"t": 2, "u": "x"})] on the document whose
    metadata is [{"t": 1}]. *)
Lemma update_document_merges_witness :
  exists ws' d',
    update_document (KStr "d1") [("t", PInt 2); ("u", PStr "x")] ws_tagged
    = (ws', Ok tt)
    /\ workspace ws' = workspace ws_tagged
    /\ edges (graph ws') = edges (graph ws_tagged)
    /\ graph_meta (graph ws') = graph_meta (graph ws_tagged)
    /\ lookup_node (KStr "d1") (nodes (graph ws')) = Some d'
    /\ doc_path d' = doc_path (mkDocument 0 (KStr "d1") [("t", PInt 1)])
    /\ doc_oid d' = doc_oid (mkDocument 0 (KStr "d1") [("t", PInt 1)])
    /\ (forall k, dict_get k (doc_metadata d')
                  = match dict_get k [("t", PInt 2); ("u", PStr "x")] with
                    | Some v => Some v
                    | None =>
                        dict_get k
                          (doc_metadata
                             (mkDocument 0 (KStr "d1") [("t", PInt 1)]))
                    end)
    /\ (forall k d0,
          lookup_node k (nodes (graph ws_tagged)) = Some d0 ->
          doc_oid d0
          <> doc_oid (mkDocument 0 (KStr "d1") [("t", PInt 1)]) ->
          lookup_node k (nodes (graph ws')) = Some d0).
Proof.
  apply (update_document_merges ws_tagged (KStr "d1")
           (mkDocument 0 (KStr "d1") [("t", PInt 1)])
           [("t", PInt 2); ("u", PStr "x")]).
  - reflexivity.
  - reflexivity.
Defined.

(** [update_metadata({"name": "new"})] on the workspace metadata
    [{"name": "demo", "tags": [...]}]. *)
Lemma Workspace_update_metadata_merges_witness :
  exists ws' d',
    Workspace_update_metadata [("name", PStr "new")] ws_stored
    = (ws', Ok tt)
    /\ workspace ws' = workspace ws_stored
    /\ nodes (graph ws') = nodes (graph ws_stored)
    /\ edges (graph ws') = edges (graph ws_stored)
    /\ graph_meta (graph ws') = PDict d'
    /\ forall k,
         dict_get k d'
         = match dict_get k [("name", PStr "new")] with
           | Some v => Some v
           | None =>
               dict_get k [("name", PStr "demo");
                           ("tags", PList [PStr "a"; PNone])]
           end.
Proof.
  apply (Workspace_update_metadata_merges ws_stored
           [("name", PStr "demo"); ("tags", PList [PStr "a"; PNone])]
           [("name", PStr "new")]).
  - reflexivity.
  - reflexivity.
Defined.

(** [write_document("d1", "hello")] on the empty in-memory workspace. *)
Lemma write_document_then_read_witness :
  exists doc,
    get_document (KStr "d1")
      (fst (write_document (KStr "d1") (MText "hello") ws_empty))
    = (fst (write_document (KStr "d1") (MText "hello") ws_empty), Ok doc)
    /\ read_content doc
         (fst (write_document (KStr "d1") (MText "hello") ws_empty))
       = (fst (write_document (KStr "d1") (MText "hello") ws_empty),
          Ok (MText "hello")).
Proof.
  apply (write_document_then_read ws_empty
           (fst (write_document (KStr "d1") (MText "hello") ws_empty))
           (KStr "d1") (MText "hello")).
  - exact MemFS_write_read.
  - reflexivity.
Defined.

(** [delete_document("d1", in_filesystem=False)] on the stored workspace:
    the node and its edge to ["d2"] go. *)
Lemma delete_document_removes_node_and_edges_witness :
  exists ws',
    delete_document (KStr "d1") false ws_stored = (ws', Ok tt)
    /\ workspace ws' = workspace ws_stored
    /\ graph_meta (graph ws') = graph_meta (graph ws_stored)
    /\ has_node (KStr "d1") (graph ws') = false
    /\ (forall k, k <> KStr "d1" ->
          lookup_node k (nodes (graph ws'))
          = lookup_node k (nodes (graph ws_stored)))
    /\ (forall u v, u <> KStr "d1" -> v <> KStr "d1" ->
          find_edge u v (graph ws') = find_edge u v (graph ws_stored))
    /\ (forall u, has_edge u (KStr "d1") (graph ws') = false
                  /\ has_edge (KStr "d1") u (graph ws') = false).
Proof.
  apply (delete_document_removes_node_and_edges ws_stored (KStr "d1")).
  reflexivity.
Defined.

(** [save] on the workspace of [create_connection("d1", "d2")], whose
    nodes are [Path("d1")] and [Path("d2")]. *)
Lemma save_raises_on_path_identifier_witness :
  exists e, snd (save ws_connected) = Err e.
Proof.
  apply (save_raises_on_path_identifier ws_connected (KPath "d1")
           (mkDocument 1 (KPath "d1") [])).
  - simpl. left. reflexivity.
  - reflexivity.
Defined.
